(** * Monday.com date-sync webhook: a shallow embedding of [src/main.py]

    The program is a FastAPI webhook receiver.  It parses an inbound JSON
    payload, echoes a setup challenge, and otherwise dispatches on the event
    type to one of two synchronisation routines which talk to the remote
    GraphQL API through [execute_monday_query].

    What is modelled

    - JSON values as Python sees them after [json.loads]: [None], [bool],
      [int], [float], [str], [list] and [dict] (an insertion-ordered
      association list whose keys are unique, as a parsed dict's are);
    - Python's dynamic operations on such values, with the exceptions they
      raise on the wrong kind of value ([.get] on a non-dict raises
      [AttributeError], and so on);
    - the remote API as an oracle [requests_post] of the environment, which
      sees the calls issued so far and the current call; every call to
      [requests.post] is appended to a log, which survives exceptions;
    - [try]/[except] blocks as handlers of an exception-and-state monad.

    [print] statements have no effect on control flow (their arguments are
    evaluated beforehand or cannot raise) and are left out; they are
    recalled in comments where they stand in the source. *)

From Stdlib Require Import String Ascii List ZArith NArith Lia Bool DecimalString.
Import ListNotations.

Local Open Scope list_scope.
Local Open Scope string_scope.

Set Warnings "-register-all".

(* ===================================================================== *)
(** ** JSON values and Python exceptions *)
(* ===================================================================== *)

(** A Python [float].  The program never computes with floats: it tests
    them for truthiness, passes them on and prints them.  A finite float
    is given by its [repr], the shortest decimal text that reads back as
    the same float ([1.5], [1e+22], [0.0], [-0.0]); [json.loads] also
    yields the three values that are not finite, for [Infinity],
    [-Infinity], [NaN] and for literals out of range such as [1e400]. *)
Inductive pyfloat : Type :=
| Finite (repr : string)
| Infinite (negative : bool)
| NaN.

(** A value produced by [json.loads] / [response.json()]: [None], [bool],
    [int], [float], [str], [list], [dict]. *)
Inductive json : Type :=
| JNull
| JBool (b : bool)
| JNum (n : Z)
| JFloat (x : pyfloat)
| JStr (s : string)
| JArr (xs : list json)
| JObj (kvs : list (string * json)).

(** The exception classes the program can meet.  All of them are
    subclasses of Python's [Exception]. *)
Inductive exn : Type :=
| HTTPException (status_code : Z) (detail : string)
| RequestException (msg : string)
| AttributeError
| TypeError
| IndexError
| KeyError.

(** A pure computation that may raise. *)
Definition E (A : Type) : Type := (exn + A)%type.

Definition bindE {A B : Type} (m : E A) (k : A -> E B) : E B :=
  match m with
  | inl e => inl e
  | inr a => k a
  end.

Declare Scope py_scope.
Delimit Scope py_scope with py.

Notation "x <~ m ;; k" := (bindE m (fun x => k))
  (at level 61, m at next level, right associativity) : py_scope.

Local Open Scope py_scope.

Fixpoint mapE {A B : Type} (f : A -> E B) (l : list A) : E (list B) :=
  match l with
  | [] => inr []
  | a :: r =>
      b <~ f a ;;
      bs <~ mapE f r ;;
      inr (b :: bs)
  end.

(* ===================================================================== *)
(** ** Python operations on JSON values *)
(* ===================================================================== *)

(** The double-quote character, and a string holding just it. *)
Definition dquote : string := String (ascii_of_nat 34) EmptyString.
Definition backslash : string := String (ascii_of_nat 92) EmptyString.

(** [bool(x)] for a float: only the two zeros are falsy. *)
Definition float_truthy (x : pyfloat) : bool :=
  match x with
  | Finite repr => negb (repr =? "0.0") && negb (repr =? "-0.0")
  | Infinite _ => true
  | NaN => true
  end.

(** [bool(x)]: [None], [False], [0], [0.0], the empty string, list and
    dict are falsy. *)
Definition py_truthy (j : json) : bool :=
  match j with
  | JNull => false
  | JBool b => b
  | JNum n => negb (n =? 0)%Z
  | JFloat x => float_truthy x
  | JStr s => negb (s =? "")
  | JArr xs => match xs with [] => false | _ => true end
  | JObj kvs => match kvs with [] => false | _ => true end
  end.

(** [a or b] *)
Definition py_or (a b : json) : json :=
  if py_truthy a then a else b.

(** [x == "literal"] for a string literal. *)
Definition py_eq_str (j : json) (s : string) : bool :=
  match j with
  | JStr t => (t =? s)
  | _ => false
  end.

(** Lookup in a dict. *)
Fixpoint dict_get (kvs : list (string * json)) (k : string) : option json :=
  match kvs with
  | [] => None
  | (k', v) :: rest => if (k' =? k) then Some v else dict_get rest k
  end.

(** [d.get(k, default)]; only dicts have [.get]. *)
Definition py_get (d : json) (k : string) (default : json) : E json :=
  match d with
  | JObj kvs =>
      match dict_get kvs k with
      | Some v => inr v
      | None => inr default
      end
  | _ => inl AttributeError
  end.

(** [d.get(k)], whose default is [None]. *)
Definition py_get1 (d : json) (k : string) : E json := py_get d k JNull.

(** [needle in haystack] on strings. *)
Fixpoint str_contains (needle haystack : string) : bool :=
  if String.prefix needle haystack then true
  else match haystack with
       | EmptyString => false
       | String _ rest => str_contains needle rest
       end.

(** [k in x] for a string [k]: key membership in a dict, element
    membership in a list, substring test on a string, [TypeError] on
    [None], booleans and numbers. *)
Definition py_contains (k : string) (x : json) : E bool :=
  match x with
  | JObj kvs => inr (match dict_get kvs k with Some _ => true | None => false end)
  | JArr xs => inr (existsb (fun y => py_eq_str y k) xs)
  | JStr s => inr (str_contains k s)
  | _ => inl TypeError
  end.

(** [x[0]] *)
Definition py_index0 (x : json) : E json :=
  match x with
  | JArr [] => inl IndexError
  | JArr (y :: _) => inr y
  | JObj _ => inl KeyError
  | JStr EmptyString => inl IndexError
  | JStr (String c _) => inr (JStr (String c EmptyString))
  | _ => inl TypeError
  end.

Fixpoint chars (s : string) : list json :=
  match s with
  | EmptyString => []
  | String c rest => JStr (String c EmptyString) :: chars rest
  end.

(** The items [for v in x] runs through: the elements of a list, the keys
    of a dict, the characters of a string; [TypeError] otherwise. *)
Definition py_iter (x : json) : E (list json) :=
  match x with
  | JArr xs => inr xs
  | JObj kvs => inr (map (fun kv => JStr (fst kv)) kvs)
  | JStr s => inr (chars s)
  | _ => inl TypeError
  end.

(** [next((col for col in cols if col.get(key) == expected), None)],
    once [cols] has been turned into its items: the generator is consumed
    up to the first match, so an item after the match is never touched. *)
Fixpoint next_with (key expected : string) (cols : list json) : E json :=
  match cols with
  | [] => inr JNull
  | col :: rest =>
      v <~ py_get1 col key ;;
      if py_eq_str v expected then inr col else next_with key expected rest
  end.

(** [sep.join(xs)]: every item must be a [str]. *)
Fixpoint py_join (sep : string) (xs : list json) : E string :=
  match xs with
  | [] => inr ""
  | JStr s :: [] => inr s
  | JStr s :: rest =>
      t <~ py_join sep rest ;;
      inr (s ++ sep ++ t)
  | _ :: _ => inl TypeError
  end.

(** [all(xs)] *)
Definition py_all (xs : list json) : bool := forallb py_truthy xs.

(** Decimal rendering of a natural number, as [%d] and [%Y] print it. *)
Definition decimal (n : N) : string := NilEmpty.string_of_uint (N.to_uint n).

Definition pad2 (n : N) : string :=
  if (n <? 10)%N then "0" ++ decimal n else decimal n.

(** [datetime(y, m, d).strftime("%Y-%m-%d")] *)
Definition strftime_Y_m_d (y m d : N) : string :=
  decimal y ++ "-" ++ pad2 m ++ "-" ++ pad2 d.

(** Escaping of a string by [json.dumps]: the quote and the backslash.
    (The only string the program serialises is a date of digits and
    hyphens.) *)
Fixpoint json_escape (s : string) : string :=
  match s with
  | EmptyString => EmptyString
  | String c rest =>
      if (c =? ascii_of_nat 34)%char then backslash ++ dquote ++ json_escape rest
      else if (c =? ascii_of_nat 92)%char then backslash ++ backslash ++ json_escape rest
      else String c (json_escape rest)
  end.

Definition Z_to_string (z : Z) : string :=
  match z with
  | Z0 => "0"
  | Zpos p => decimal (Npos p)
  | Zneg p => "-" ++ decimal (Npos p)
  end.

Fixpoint join_strings (sep : string) (xs : list string) : string :=
  match xs with
  | [] => ""
  | [s] => s
  | s :: rest => s ++ sep ++ join_strings sep rest
  end.

(** A float as [json.dumps] writes it with its default [allow_nan=True]. *)
Definition float_dumps (x : pyfloat) : string :=
  match x with
  | Finite repr => repr
  | Infinite false => "Infinity"
  | Infinite true => "-Infinity"
  | NaN => "NaN"
  end.

(** [json.dumps(x)] with the default separators [", "] and [": "]. *)
Fixpoint json_dumps (j : json) : string :=
  match j with
  | JNull => "null"
  | JBool true => "true"
  | JBool false => "false"
  | JNum n => Z_to_string n
  | JFloat x => float_dumps x
  | JStr s => dquote ++ json_escape s ++ dquote
  | JArr xs => "[" ++ join_strings ", " (map json_dumps xs) ++ "]"
  | JObj kvs =>
      "{" ++ join_strings ", "
               (map (fun kv => match kv with
                               | (k, v) => dquote ++ json_escape k ++ dquote ++ ": " ++ json_dumps v
                               end) kvs) ++ "}"
  end.

(* ===================================================================== *)
(** ** The remote API, the environment and the effect monad *)
(* ===================================================================== *)

(** The GraphQL documents the program sends.  Each constructor stands for
    one literal query text of the source; the first one is the only text
    built at run time ([% item_id] fills the [ids: [%s]] hole).

    - [ItemsWithSubitems item_id]: the query of [process_date_automation],
      asking for the item's name, [column_values(ids: ["date7"])] with
      [value] and [text], and its subitems with [id], [name], [board { id }];
    - [GetParentItem], [GetSubItem]: the two lookups of
      [sync_subitem_with_parent], asking for [id], [name] and all
      [column_values] with [id], [type], [value];
    - [ChangeColumnValue]: the anonymous [change_column_value] mutation of
      [process_date_automation];
    - [UpdateSubitemDate]: the [change_column_value] mutation of
      [sync_subitem_with_parent]. *)
Inductive Query : Type :=
| ItemsWithSubitems (item_id : json)
| GetParentItem
| GetSubItem
| ChangeColumnValue
| UpdateSubitemDate.

(** One [requests.post(MONDAY_API_URL, json={"query": ..., "variables": ...})].
    [variables = None] is [call_variables = None]. *)
Record Call : Type := mkCall {
  call_query : Query;
  call_variables : option json
}.

(** Both mutations are [change_column_value] mutations. *)
Definition is_mutation (c : Call) : bool :=
  match call_query c with
  | ChangeColumnValue | UpdateSubitemDate => true
  | _ => false
  end.

(** The [change_column_value] mutation calls among [calls]. *)
Definition mutation_calls (calls : list Call) : list Call :=
  filter is_mutation calls.

(** What [requests.post] does: it raises a [requests.RequestException]
    (a network failure, or a body it refuses to encode), or returns a
    response with a [status_code], a [text], and a body that
    [response.json()] either decodes or rejects (raising
    [requests.JSONDecodeError], a [RequestException]). *)
Inductive Outcome : Type :=
| ConnectionFailed (msg : string)
| Response (status_code : Z) (text : string) (body : string + json).

(** Everything outside the program that its run depends on. *)
Record Env : Type := mkEnv {
  (** [os.getenv("MONDAY_API_KEY")] *)
  MONDAY_API_KEY : option string;
  (** the remote service: the calls issued so far, the call, the outcome *)
  requests_post : list Call -> Call -> Outcome;
  (** [datetime.now().year] *)
  today_year : N;
  (** [datetime.now().isoformat()] *)
  now_isoformat : string;
  (** [str(e)] *)
  exn_str : exn -> string;
  (** [traceback.format_exc()] while [e] is being handled *)
  format_exc : exn -> string
}.

(** An effectful computation: it reads the log of calls issued so far and
    returns a value or an exception together with the new log. *)
Definition M (A : Type) : Type := list Call -> E A * list Call.

Definition ret {A : Type} (a : A) : M A := fun log => (inr a, log).

Definition raise {A : Type} (e : exn) : M A := fun log => (inl e, log).

Definition bind {A B : Type} (m : M A) (k : A -> M B) : M B :=
  fun log =>
    match m log with
    | (inl e, log') => (inl e, log')
    | (inr a, log') => k a log'
    end.

(** A pure computation inside an effectful one. *)
Definition liftE {A : Type} (m : E A) : M A := fun log => (m, log).

(** [try: m  except Exception as e: h e] *)
Definition try_except {A : Type} (m : M A) (h : exn -> M A) : M A :=
  fun log =>
    match m log with
    | (inl e, log') => h e log'
    | (inr a, log') => (inr a, log')
    end.

Notation "x <- m ;; k" := (bind m (fun x => k))
  (at level 61, m at next level, right associativity) : py_scope.
Notation "x <-- m ;; k" := (bind (liftE m) (fun x => k))
  (at level 61, m at next level, right associativity) : py_scope.

(** The calls [m] issues when started with the log [log]. *)
Definition calls_of {A : Type} (m : M A) (log : list Call) : list Call :=
  skipn (length log) (snd (m log)).

(** The value can be written as strict JSON, that is, by
    [json.dumps(x, allow_nan=False)]: it holds no float that is not
    finite. *)
Fixpoint json_compliant (j : json) : bool :=
  match j with
  | JFloat (Finite _) => true
  | JFloat _ => false
  | JArr xs => forallb json_compliant xs
  | JObj kvs => forallb (fun kv => json_compliant (snd kv)) kvs
  | _ => true
  end.

(** The response FastAPI sends for a handler's outcome.  A returned value
    is rendered by [JSONResponse] with [allow_nan=False]: it is sent with
    status 200 when it can be written as strict JSON, and the rendering
    raises otherwise, which gives status 500.  A raised [HTTPException]
    is sent with its own status code; any other exception with 500. *)
Definition fastapi_status (r : E json) : Z :=
  match r with
  | inr response => if json_compliant response then 200 else 500
  | inl (HTTPException status_code _) => status_code
  | inl _ => 500
  end.

(** The inbound HTTP request, by what the handler can observe of it:
    the outcome of [await request.json()] ([inl msg] when it raises, with
    [msg] the text of the exception) and the outcome of the fallback
    [json.loads(raw_body.decode('utf-8'))] ([None] when it raises). *)
Record Request : Type := mkRequest {
  request_json : string + json;
  raw_body_json : option json
}.

Section Program.

Variable env : Env.

(** [bool(MONDAY_API_KEY)] *)
Definition api_key_configured : bool :=
  match MONDAY_API_KEY env with
  | Some k => negb (k =? "")
  | None => false
  end.

(** [requests.post(MONDAY_API_URL, json=data, headers=headers)] *)
Definition post (c : Call) : M (Z * string * (string + json)) :=
  fun log =>
    match requests_post env log c with
    | ConnectionFailed msg => (inl (RequestException msg), (log ++ [c])%list)
    | Response status_code text body => (inr (status_code, text, body), (log ++ [c])%list)
    end.

(** [response.json()] *)
Definition response_json_of (body : string + json) : M json :=
  match body with
  | inl msg => raise (RequestException msg)
  | inr j => ret j
  end.

(** [execute_monday_query], lines 46-87. *)
Definition execute_monday_query (query : Query) (variables : option json) : M json :=
  if negb api_key_configured then
    raise (HTTPException 500 "Monday.com API key not configured")
  else
    try_except
      (response <- post (mkCall query variables) ;;
       match response with
       | (status_code, text, body) =>
           if negb (status_code =? 200)%Z then
             raise (HTTPException status_code ("Error from Monday.com API: " ++ text))
           else
             response_json <- response_json_of body ;;
             has_errors <-- py_contains "errors" response_json ;;
             if (has_errors : bool) then
               errors <-- py_get response_json "errors" (JArr []) ;;
               items <-- py_iter errors ;;
               error_messages <--
                 mapE (fun error => py_get error "message" (JStr "Unknown error")) items ;;
               joined <-- py_join ", " error_messages ;;
               raise (HTTPException 400 ("Monday.com API returned errors: " ++ joined))
             else
               ret response_json
       end)
      (fun e =>
         match e with
         | RequestException msg =>
             raise (HTTPException 500 ("Request to Monday.com API failed: " ++ msg))
         | _ => raise e
         end).

(** *** Parent -> subitems (lines 173-272) *)

(** The body of [for subitem in subitems] (lines 250-269): a subitem
    without an id or a board id is skipped; the mutation has its own
    [try]/[except Exception]. *)
Definition update_subitem (date_value subitem : json) : M unit :=
  subitem_id <-- py_get1 subitem "id" ;;
  subitem_name <-- py_get subitem "name" (JStr "Unknown") ;;
  board <-- py_get subitem "board" (JObj []) ;;
  subitem_board_id <-- py_get1 board "id" ;;
  if negb (py_truthy subitem_id) || negb (py_truthy subitem_board_id) then
    ret tt (* continue *)
  else
    let variables :=
      JObj [("boardId", subitem_board_id);
            ("itemId", subitem_id);
            ("columnId", JStr "date_mkn2am1b");
            ("value", date_value)] in
    try_except
      (updated <- execute_monday_query ChangeColumnValue (Some variables) ;;
       ret tt)
      (fun e => ret tt).

Fixpoint update_subitems (date_value : json) (subitems : list json) : M unit :=
  match subitems with
  | [] => ret tt
  | subitem :: rest =>
      done <- update_subitem date_value subitem ;;
      update_subitems date_value rest
  end.

(** [process_date_automation].  The item id is read outside the [try];
    everything from the query on is inside it. *)
Definition process_date_automation (webhook_data : json) : M unit :=
  event <-- py_get webhook_data "event" (JObj []) ;;
  pulseId <-- py_get1 event "pulseId" ;;
  pulse_id <-- py_get1 event "pulse_id" ;;
  itemId <-- py_get1 event "itemId" ;;
  let item_id := py_or pulseId (py_or pulse_id itemId) in
  if negb (py_truthy item_id) then
    ret tt (* Missing item ID in webhook data *)
  else
    try_except
      (result <- execute_monday_query (ItemsWithSubitems item_id) None ;;
       data <-- py_get result "data" (JObj []) ;;
       items <-- py_get data "items" (JArr []) ;;
       if negb (py_truthy items) then
         ret tt (* Parent item not found *)
       else
         parent <-- py_index0 items ;;
         parent_name <-- py_get parent "name" (JStr "Unknown") ;;
         column_values <-- py_get1 parent "column_values" ;;
         date_column <--
           (if py_truthy column_values then
              cvs <~ py_get parent "column_values" (JArr []) ;;
              py_index0 cvs
            else inr JNull) ;;
         if negb (py_truthy date_column) then
           ret tt (* Creative Deadline column not found *)
         else
           date_value <-- py_get1 date_column "value" ;;
           date_text <-- py_get date_column "text" (JStr "") ;;
           if negb (py_truthy date_value) || py_eq_str date_value "null" then
             ret tt (* No date value to sync *)
           else
             subitems <-- py_get parent "subitems" (JArr []) ;;
             if negb (py_truthy subitems) then
               ret tt (* No subitems found *)
             else
               (* len(subitems) raises TypeError exactly when iterating does *)
               each <-- py_iter subitems ;;
               update_subitems date_value each)
      (fun e => ret tt).

(** *** Subitem -> parent (lines 274-443) *)

(** The column lookup the source writes out twice (lines 352-358 for the
    parent, 378-384 for the subitem): the column whose id is [column_id],
    else the first column whose type is ["date"], else [None]. *)
Definition find_date_column (item : json) (column_id : string) : E json :=
  cols <~ py_get item "column_values" (JArr []) ;;
  each <~ py_iter cols ;;
  by_id <~ next_with "id" column_id each ;;
  if negb (py_truthy by_id) then
    cols' <~ py_get item "column_values" (JArr []) ;;
    each' <~ py_iter cols' ;;
    next_with "type" "date" each'
  else inr by_id.

(** [json.dumps({"date": datetime(today.year, 3, 11).strftime("%Y-%m-%d")})] *)
Definition march_11_value : json :=
  JStr (json_dumps (JObj [("date", JStr (strftime_Y_m_d (today_year env) 3 11))])).

(** [sync_subitem_with_parent].  The two lookups are issued before the
    [try] block opens (lines 315 and 336). *)
Definition sync_subitem_with_parent (webhook_data : json) : M unit :=
  event <-- py_get webhook_data "event" (JObj []) ;;
  itemId <-- py_get1 event "itemId" ;;
  pulseId <-- py_get1 event "pulseId" ;;
  let subitem_id := py_or itemId pulseId in
  subitem_board_id <-- py_get1 event "boardId" ;;
  parent_item_id <-- py_get1 event "parentItemId" ;;
  parent_board_id <-- py_get1 event "parentItemBoardId" ;;
  if negb (py_all [subitem_id; subitem_board_id; parent_item_id; parent_board_id]) then
    ret tt (* Missing required IDs for subitem-parent sync *)
  else
    parent_result <-
      execute_monday_query GetParentItem (Some (JObj [("itemId", parent_item_id)])) ;;
    subitem_result <-
      execute_monday_query GetSubItem (Some (JObj [("itemId", subitem_id)])) ;;
    try_except
      (parent_data <-- py_get parent_result "data" (JObj []) ;;
       parent_items <-- py_get parent_data "items" (JArr []) ;;
       if negb (py_truthy parent_items) then
         ret tt (* Parent item not found *)
       else
         parent_item <-- py_index0 parent_items ;;
         parent_name <-- py_get parent_item "name" (JStr "Unknown") ;;
         parent_date_col <-- find_date_column parent_item "date7" ;;
         if negb (py_truthy parent_date_col) then
           ret tt (* No date column found in parent item *)
         else
           parent_col_id <-- py_get1 parent_date_col "id" ;;
           subitem_data <-- py_get subitem_result "data" (JObj []) ;;
           subitem_items <-- py_get subitem_data "items" (JArr []) ;;
           if negb (py_truthy subitem_items) then
             ret tt (* Subitem not found *)
           else
             subitem <-- py_index0 subitem_items ;;
             subitem_name <-- py_get subitem "name" (JStr "Unknown") ;;
             subitem_date_col <-- find_date_column subitem "date_mkn2am1b" ;;
             if negb (py_truthy subitem_date_col) then
               ret tt (* No date column found in subitem *)
             else
               subitem_col_id <-- py_get1 subitem_date_col "id" ;;
               fetched_value <-- py_get1 parent_date_col "value" ;;
               (* lines 396-404 only print; their bare except swallows
                  whatever json.loads raises *)
               let parent_value :=
                 if negb (py_truthy fetched_value) || py_eq_str fetched_value "null"
                 then march_11_value
                 else fetched_value in
               if py_truthy parent_value then
                 try_except
                   (column_id <-- py_get1 subitem_date_col "id" ;;
                    let variables :=
                      JObj [("boardId", subitem_board_id);
                            ("itemId", subitem_id);
                            ("columnId", column_id);
                            ("value", parent_value)] in
                    result <- execute_monday_query UpdateSubitemDate (Some variables) ;;
                    ret tt)
                   (fun e => ret tt)
               else
                 ret tt (* Parent date value is empty, nothing to sync *))
      (fun e => ret tt).

(** *** The webhook handler (lines 101-171) *)

Definition success_response : json := JObj [("status", JStr "success")].

Definition error_response (e : exn) : json :=
  JObj [("status", JStr "error");
        ("error", JStr (exn_str env e));
        ("traceback", JStr (format_exc env e));
        ("timestamp", JStr (now_isoformat env))].

(** Lines 117-127: [request.json()], then the fallback on the raw body,
    then [HTTPException(status_code=400)]. *)
Definition parse_body (request : Request) : M json :=
  match request_json request with
  | inr body => ret body
  | inl json_error =>
      match raw_body_json request with
      | Some body => ret body
      | None => raise (HTTPException 400 ("Invalid JSON payload: " ++ json_error))
      end
  end.

(** [monday_webhook].  The whole body, the parsing included, is inside
    one [try]/[except Exception]. *)
Definition monday_webhook (request : Request) : M json :=
  try_except
    (body <- parse_body request ;;
     event <-- py_get body "event" (JObj []) ;;
     event_type <-- py_get1 event "type" ;;
     is_challenge <-- py_contains "challenge" body ;;
     if (is_challenge : bool) then
       ret body
     else
       if py_eq_str event_type "create_pulse" || py_eq_str event_type "update_column_value" then
         event' <-- py_get body "event" (JObj []) ;;
         parentItemId <-- py_get1 event' "parentItemId" ;;
         done <- (if py_truthy parentItemId
                  then sync_subitem_with_parent body
                  else process_date_automation body) ;;
         ret success_response
       else
         (* "subitem" in str(event_type).lower(): either branch only prints *)
         ret success_response)
    (fun e => ret (error_response e)).

(** [root_webhook] (lines 91-99) *)
Definition root_webhook (request : Request) : M json := monday_webhook request.

End Program.

(* ===================================================================== *)
(** ** Observations used to state the properties *)
(* ===================================================================== *)

(** The value stored under [k], [None] when the key is absent. *)
Definition field (kvs : list (string * json)) (k : string) : json :=
  match dict_get kvs k with
  | Some v => v
  | None => JNull
  end.

(** A subitem as the query of [process_date_automation] asks for it: a
    dict whose ["board"], when present, is a dict. *)
Definition subitem_shaped (subitem : json) : bool :=
  match subitem with
  | JObj kvs =>
      match dict_get kvs "board" with
      | None => true
      | Some (JObj _) => true
      | Some _ => false
      end
  | _ => false
  end.

Definition subitem_id_of (subitem : json) : json :=
  match subitem with
  | JObj kvs => field kvs "id"
  | _ => JNull
  end.

Definition subitem_board_id_of (subitem : json) : json :=
  match subitem with
  | JObj kvs =>
      match dict_get kvs "board" with
      | Some (JObj board) => field board "id"
      | _ => JNull
      end
  | _ => JNull
  end.

(** The subitem carries an id and a board id. *)
Definition has_ids (subitem : json) : bool :=
  py_truthy (subitem_id_of subitem) && py_truthy (subitem_board_id_of subitem).

(** The mutation call for one subitem. *)
Definition subitem_mutation (date_value subitem : json) : Call :=
  mkCall ChangeColumnValue
         (Some (JObj [("boardId", subitem_board_id_of subitem);
                      ("itemId", subitem_id_of subitem);
                      ("columnId", JStr "date_mkn2am1b");
                      ("value", date_value)])).

(** The parent item in the answer to the [ItemsWithSubitems] query, seen
    as the schema shapes it: [{"data": {"items": [{"column_values":
    [{"value": v, ...}, ...], "subitems": [...], ...}, ...]}}] with no
    ["errors"] key.  The result is the raw date value [v] and the list of
    subitems. *)
Definition parent_view (result : json) : option (json * list json) :=
  match result with
  | JObj r =>
      match dict_get r "errors", dict_get r "data" with
      | None, Some (JObj data) =>
          match dict_get data "items" with
          | Some (JArr (JObj parent :: _)) =>
              match dict_get parent "column_values", dict_get parent "subitems" with
              | Some (JArr (JObj date_column :: _)), Some (JArr subitems) =>
                  match dict_get date_column "value" with
                  | Some v => Some (v, subitems)
                  | None => None
                  end
              | _, _ => None
              end
          | _ => None
          end
      | _, _ => None
      end
  | _ => None
  end.

(** The item id [process_date_automation] reads from the event. *)
Definition event_item_id (event : list (string * json)) : json :=
  py_or (field event "pulseId") (py_or (field event "pulse_id") (field event "itemId")).

(** The date value [process_date_automation] reads from the answer:
    [items[0]]'s first column value's ["value"], following lines 208-223;
    [None] where the routine stops for want of an item or a column, an
    exception where one of the steps raises. *)
Definition fetched_date_value (result : json) : E json :=
  data <~ py_get result "data" (JObj []) ;;
  items <~ py_get data "items" (JArr []) ;;
  if negb (py_truthy items) then inr JNull
  else
    parent <~ py_index0 items ;;
    parent_name <~ py_get parent "name" (JStr "Unknown") ;;
    column_values <~ py_get1 parent "column_values" ;;
    date_column <~
      (if py_truthy column_values then
         cvs <~ py_get parent "column_values" (JArr []) ;;
         py_index0 cvs
       else inr JNull) ;;
    if negb (py_truthy date_column) then inr JNull
    else py_get1 date_column "value".

(** The fetched date value is absent, falsy or the string ["null"]. *)
Definition date_value_missing (result : json) : bool :=
  match fetched_date_value result with
  | inl _ => true
  | inr v => negb (py_truthy v) || py_eq_str v "null"
  end.

(** The log [out] extends [log] by the parent query at most. *)
Definition query_at_most (log out : list Call) : Prop :=
  out = log \/ exists item_id, out = (log ++ [mkCall (ItemsWithSubitems item_id) None])%list.


(** The subitem id [sync_subitem_with_parent] reads from the event. *)
Definition event_subitem_id (event : list (string * json)) : json :=
  py_or (field event "itemId") (field event "pulseId").

(** The four identifiers [sync_subitem_with_parent] requires: subitem id,
    subitem board id, parent item id, parent board id. *)
Definition required_ids (event : list (string * json)) : list json :=
  [event_subitem_id event;
   field event "boardId";
   field event "parentItemId";
   field event "parentItemBoardId"].

(** The two lookups of [sync_subitem_with_parent]. *)
Definition parent_lookup (event : list (string * json)) : Call :=
  mkCall GetParentItem (Some (JObj [("itemId", field event "parentItemId")])).

Definition subitem_lookup (event : list (string * json)) : Call :=
  mkCall GetSubItem (Some (JObj [("itemId", event_subitem_id event)])).

(** The date column [sync_subitem_with_parent] locates in the answer to a
    lookup (lines 340-362 for the parent, 367-388 for the subitem):
    [items[0]]'s column with the given id, else its first column of type
    ["date"]; [None] when the routine stops there or a step raises. *)
Definition located_date_column (result : json) (column_id : string) : option json :=
  match (data <~ py_get result "data" (JObj []) ;;
         items <~ py_get data "items" (JArr []) ;;
         if negb (py_truthy items) then inr JNull
         else
           item <~ py_index0 items ;;
           name <~ py_get item "name" (JStr "Unknown") ;;
           find_date_column item column_id)
  with
  | inr col => if py_truthy col then Some col else None
  | inl _ => None
  end.

(** The value is empty or the string ["null"] (the test of lines 229
    and 407). *)
Definition empty_or_null (v : json) : bool :=
  negb (py_truthy v) || py_eq_str v "null".

(** The value the mutation of [sync_subitem_with_parent] carries for a
    fetched parent value (lines 407-412). *)
Definition synced_value (env : Env) (fetched : json) : json :=
  if empty_or_null fetched then march_11_value env else fetched.

(** The mutation of [sync_subitem_with_parent] for the subitem of [event],
    writing [value] into the column [column_id]. *)
Definition subitem_date_mutation (event : list (string * json)) (column_id value : json) : Call :=
  mkCall UpdateSubitemDate
         (Some (JObj [("boardId", field event "boardId");
                      ("itemId", event_subitem_id event);
                      ("columnId", column_id);
                      ("value", value)])).

(** The ["value"] variable of a call, [None] when it has none. *)
Definition value_variable (c : Call) : option json :=
  match call_variables c with
  | Some (JObj vars) => dict_get vars "value"
  | _ => None
  end.

(** The ["boardId"] variable of a call. *)
Definition board_variable (c : Call) : option json :=
  match call_variables c with
  | Some (JObj vars) => dict_get vars "boardId"
  | _ => None
  end.

(** The body the handler works on, when the request has one: the outcome
    of [request.json()], else of the fallback on the raw body. *)
Definition parsed_body (request : Request) : option json :=
  match request_json request with
  | inr body => Some body
  | inl _ => raw_body_json request
  end.

(** The request is dispatched to [process_date_automation]: its body is a
    dict without ["challenge"], whose event is a dict of type
    [create_pulse] or [update_column_value] without a parent item id. *)
Definition parent_update_request (request : Request) : bool :=
  match parsed_body request with
  | Some (JObj body) =>
      match dict_get body "challenge", dict_get body "event" with
      | None, Some (JObj event) =>
          (py_eq_str (field event "type") "create_pulse"
           || py_eq_str (field event "type") "update_column_value")
          && negb (py_truthy (field event "parentItemId"))
      | _, _ => false
      end
  | _ => false
  end.

(** The remote service answered with a status other than 200, or with a
    body whose ["errors"] is a non-empty array. *)
Definition upstream_failure (status_code : Z) (body : string + json) : bool :=
  negb (status_code =? 200)%Z
  || match body with
     | inr (JObj kvs) =>
         match dict_get kvs "errors" with
         | Some (JArr (_ :: _)) => true
         | _ => false
         end
     | _ => false
     end.

(** The JSON object [{"date": "<year>-03-11"}] and its text as
    [json.dumps] writes it. *)
Definition march_11_object (year : N) : json :=
  JObj [("date", JStr (decimal year ++ "-03-11"))].

Definition march_11_text (year : N) : string :=
  "{" ++ dquote ++ "date" ++ dquote ++ ": "
      ++ dquote ++ decimal year ++ "-03-11" ++ dquote ++ "}".

(** An entry of an ["errors"] array as the remote service writes it: a
    dict whose ["message"], when present, is a string. *)
Definition error_object (error : json) : bool :=
  match error with
  | JObj kvs =>
      match dict_get kvs "message" with
      | None => true
      | Some (JStr _) => true
      | Some _ => false
      end
  | _ => false
  end.

(** Its message, ["Unknown error"] when it has none (line 78). *)
Definition error_message (error : json) : string :=
  match error with
  | JObj kvs =>
      match dict_get kvs "message" with
      | Some (JStr message) => message
      | _ => "Unknown error"
      end
  | _ => "Unknown error"
  end.

(* ===================================================================== *)
(** ** Concrete environments and inputs for the examples *)
(* ===================================================================== *)

Module Examples.

(** An environment with a configured key, in the year 2026, whose remote
    service answers each call by [respond], whatever came before. *)
Definition env_of (respond : Call -> Outcome) : Env :=
  {| MONDAY_API_KEY := Some "secret";
     requests_post := fun log c => respond c;
     today_year := 2026;
     now_isoformat := "2026-11-03T09:00:00";
     exn_str := fun e =>
       match e with
       | HTTPException status_code detail => Z_to_string status_code ++ ": " ++ detail
       | RequestException msg => msg
       | AttributeError => "AttributeError"
       | TypeError => "TypeError"
       | IndexError => "IndexError"
       | KeyError => "KeyError"
       end;
     format_exc := fun e => "Traceback (most recent call last)" |}.

(** The raw value the service stores in a date column for 1 May 2024. *)
Definition may_first : json := JStr (json_dumps (JObj [("date", JStr "2024-05-01")])).

Definition ok (body : json) : Outcome := Response 200 "" (inr body).

Definition server_error : Outcome := Response 500 "Internal Server Error" (inl "no JSON").

Definition items_answer (items : list json) : json :=
  JObj [("data", JObj [("items", JArr items)])].

(** An [update_column_value] event on item 77, with no parent item id. *)
Definition parent_event : json :=
  JObj [("event", JObj [("type", JStr "update_column_value");
                        ("pulseId", JNum 77);
                        ("boardId", JNum 5)])].

(** A subitem with its id and its board. *)
Definition subitem_a : json :=
  JObj [("id", JStr "11"); ("name", JStr "Draft"); ("board", JObj [("id", JStr "900")])].

(** A subitem that comes without a board. *)
Definition subitem_b : json :=
  JObj [("id", JStr "12"); ("name", JStr "Review")].

Definition subitem_c : json :=
  JObj [("id", JStr "13"); ("name", JStr "Ship"); ("board", JObj [("id", JStr "901")])].

(** The parent item 77 with a date and the given subitems. *)
Definition parent_with (date_value : json) (subitems : list json) : json :=
  items_answer
    [JObj [("name", JStr "Launch");
           ("column_values", JArr [JObj [("value", date_value); ("text", JStr "2024-05-01")]]);
           ("subitems", JArr subitems)]].

(** A service that answers the parent query with [answer] and accepts
    every mutation. *)
Definition parent_service (answer : json) (c : Call) : Outcome :=
  match call_query c with
  | ItemsWithSubitems _ => ok answer
  | _ => ok (JObj [("data", JObj [("change_column_value", JObj [("id", JStr "1")])])])
  end.

(** A subitem-creation event: subitem 11 on board 900 under parent 77 on
    board 5. *)
Definition subitem_event : json :=
  JObj [("event", JObj [("type", JStr "create_pulse");
                        ("pulseId", JNum 11);
                        ("boardId", JNum 900);
                        ("parentItemId", JNum 77);
                        ("parentItemBoardId", JNum 5)])].

Definition subitem_event_fields : list (string * json) :=
  [("type", JStr "create_pulse");
   ("pulseId", JNum 11);
   ("boardId", JNum 900);
   ("parentItemId", JNum 77);
   ("parentItemBoardId", JNum 5)].

(** The same event without the parent board id. *)
Definition subitem_event_no_parent_board : json :=
  JObj [("event", JObj [("type", JStr "create_pulse");
                        ("pulseId", JNum 11);
                        ("boardId", JNum 900);
                        ("parentItemId", JNum 77)])].

(** The answer to a lookup: one item with one date column. *)
Definition item_with_column (column_id : string) (value : json) : json :=
  items_answer
    [JObj [("id", JStr "1");
           ("name", JStr "Item");
           ("column_values",
            JArr [JObj [("id", JStr "status"); ("type", JStr "color"); ("value", JNull)];
                  JObj [("id", JStr column_id); ("type", JStr "date"); ("value", value)]])]].

(** A service for the subitem path: the parent's date column holds
    [parent_value]; every mutation is accepted. *)
Definition lookup_service (parent_value : json) (c : Call) : Outcome :=
  match call_query c with
  | GetParentItem => ok (item_with_column "date7" parent_value)
  | GetSubItem => ok (item_with_column "date_mkn2am1b" JNull)
  | _ => ok (JObj [("data", JObj [("change_column_value", JObj [("id", JStr "11")])])])
  end.

(** A service that is down. *)
Definition down_service (c : Call) : Outcome := server_error.

Definition request_of (body : json) : Request :=
  {| request_json := inr body; raw_body_json := Some body |}.

(** A request whose body is not JSON. *)
Definition malformed_request : Request :=
  {| request_json := inl "Expecting value: line 1 column 1 (char 0)";
     raw_body_json := None |}.

(** A challenge payload that also carries an event that is not a dict. *)
Definition challenge_with_null_event : json :=
  JObj [("challenge", JStr "abc123"); ("event", JNull)].

Definition plain_challenge : json := JObj [("challenge", JStr "abc123")].

End Examples.

(* ===================================================================== *)
(** ** The test endpoint and further observations *)
(* ===================================================================== *)

(** [os.getenv(name, default)] *)
Definition getenv_or (getenv : string -> option string) (name default : string) : string :=
  match getenv name with
  | Some v => v
  | None => default
  end.

(** [test_endpoint] (lines 28-44).  [getenv] is [os.getenv] at the time
    of the request; the key was read when the module was loaded. *)
Definition test_endpoint (env : Env) (getenv : string -> option string) : json :=
  JObj [("status", JStr "ok");
        ("message", JStr "Application is running");
        ("environment",
         JObj [("monday_api_key_configured", JBool (api_key_configured env));
               ("python_version", JStr (getenv_or getenv "PYTHON_VERSION" "unknown"));
               ("vercel", JBool (getenv_or getenv "VERCEL" "0" =? "1"));
               ("vercel_region", JStr (getenv_or getenv "VERCEL_REGION" "unknown"));
               ("timestamp", JStr (now_isoformat env))])].

(** The value is a dict. *)
Definition is_dict (j : json) : bool :=
  match j with
  | JObj _ => true
  | _ => false
  end.

(** The member [k] of a value, [None] when the value is no dict or has no
    such key. *)
Definition member (j : json) (k : string) : json :=
  match j with
  | JObj kvs => field kvs k
  | _ => JNull
  end.

(** The column is a dict whose [key] member is the string [expected]. *)
Definition column_has (key expected : string) (col : json) : bool :=
  py_eq_str (member col key) expected.

(** The first element of [cols] that satisfies [p], [None] when there is
    none. *)
Definition first_or_none (p : json -> bool) (cols : list json) : json :=
  match find p cols with
  | Some col => col
  | None => JNull
  end.

(** The calls [process_date_automation] may issue for an event: nothing,
    or the query for the event's item followed by mutations, all with the
    same value, each for a subitem that carries its two identifiers. *)
Definition parent_update_calls (event : list (string * json)) (calls : list Call) : Prop :=
  calls = []
  \/ exists date_value subitems,
      forallb has_ids subitems = true
      /\ calls = mkCall (ItemsWithSubitems (event_item_id event)) None
                 :: map (subitem_mutation date_value) subitems.

(** The calls [sync_subitem_with_parent] may issue for an event: the
    parent lookup, then the subitem lookup, then one mutation on the
    event's subitem and board, stopping after any of them. *)
Definition subitem_sync_calls (event : list (string * json)) (calls : list Call) : Prop :=
  calls = []
  \/ calls = [parent_lookup event]
  \/ calls = [parent_lookup event; subitem_lookup event]
  \/ exists column_id value,
      calls = [parent_lookup event; subitem_lookup event;
               subitem_date_mutation event column_id value].

(** The mutation [sync_subitem_with_parent] issues once both lookups are
    answered: none unless both date columns are located. *)
Definition subitem_sync_mutation
           (env : Env) (event : list (string * json))
           (parent_result subitem_result : json) : list Call :=
  match located_date_column parent_result "date7",
        located_date_column subitem_result "date_mkn2am1b" with
  | Some parent_col, Some subitem_col =>
      [subitem_date_mutation event (member subitem_col "id")
                             (synced_value env (member parent_col "value"))]
  | _, _ => []
  end.

(** The event type is one the handler acts on. *)
Definition handled_type (event_type : json) : bool :=
  py_eq_str event_type "create_pulse" || py_eq_str event_type "update_column_value".

Module MoreExamples.

Import Examples.

Definition keyless_env : Env :=
  {| MONDAY_API_KEY := None;
     requests_post := fun log c => ok (JObj []);
     today_year := 2026;
     now_isoformat := "2026-11-03T09:00:00";
     exn_str := fun e => "error";
     format_exc := fun e => "Traceback (most recent call last)" |}.

(** A service that cannot be reached. *)
Definition unreachable_service (c : Call) : Outcome := ConnectionFailed "Connection refused".

(** A subitem whose board is [null]. *)
Definition subitem_null_board : json :=
  JObj [("id", JStr "14"); ("name", JStr "Broken"); ("board", JNull)].

(** An event without any item id. *)
Definition event_without_item : json :=
  JObj [("event", JObj [("type", JStr "update_column_value"); ("boardId", JNum 5)])].

(** An event of a type the handler does not act on. *)
Definition delete_event : json :=
  JObj [("event", JObj [("type", JStr "delete_pulse"); ("pulseId", JNum 77)])].

(** A column list where a column of type date comes before the column
    with the wanted id. *)
Definition two_date_columns : list json :=
  [JObj [("id", JStr "date4"); ("type", JStr "date"); ("value", JNull)];
   JObj [("id", JStr "date7"); ("type", JStr "date"); ("value", may_first)]].

(** The answer to a lookup: one item without any date column. *)
Definition item_without_date : json :=
  items_answer
    [JObj [("id", JStr "1");
           ("name", JStr "Item");
           ("column_values",
            JArr [JObj [("id", JStr "status"); ("type", JStr "color"); ("value", JNull)]])]].

(** A service for the subitem path whose parent has no date column. *)
Definition dateless_parent_service (c : Call) : Outcome :=
  match call_query c with
  | GetParentItem => ok item_without_date
  | GetSubItem => ok (item_with_column "date_mkn2am1b" JNull)
  | _ => ok (JObj [])
  end.

(** A service that answers the parent lookup and fails the subitem
    lookup. *)
Definition half_down_service (c : Call) : Outcome :=
  match call_query c with
  | GetParentItem => ok (item_with_column "date7" may_first)
  | _ => server_error
  end.

(** A service that answers the lookups and rejects the mutation. *)
Definition rejecting_service (c : Call) : Outcome :=
  match call_query c with
  | GetParentItem => ok (item_with_column "date7" may_first)
  | GetSubItem => ok (item_with_column "date_mkn2am1b" JNull)
  | _ => server_error
  end.

(** A service where item 77 holds the date ["null"] and every other item
    holds a date. *)
Definition selective_service (c : Call) : Outcome :=
  match call_query c with
  | ItemsWithSubitems (JNum 77) =>
      ok (parent_with (JStr "null") [subitem_a; subitem_c])
  | ItemsWithSubitems _ =>
      ok (parent_with may_first [subitem_a; subitem_c])
  | _ => ok (JObj [])
  end.

(** An answer whose ["errors"] array holds an entry with a [null]
    message. *)
Definition null_message_answer : json :=
  JObj [("errors", JArr [JObj [("message", JNull)]])].

(** An answer with two well-formed errors, the second without message. *)
Definition two_errors_answer : json :=
  JObj [("errors", JArr [JObj [("message", JStr "Not authenticated")];
                         JObj [("code", JStr "Internal")]])].

End MoreExamples.
Arguments post env c log /.
Arguments ret {A} a log /.
Arguments raise {A} e log /.
Arguments liftE {A} m log /.


(* ===================================================================== *)
(** ** Basic facts about the effect monad and the API client *)
(* ===================================================================== *)

Lemma skipn_app_exact {A : Type} (l r : list A) : skipn (length l) (l ++ r)%list = r.
Proof.
  induction l as [|a l IH]; simpl; auto.
Qed.

Lemma calls_of_app {A : Type} (m : M A) (log new : list Call) :
  snd (m log) = (log ++ new)%list -> calls_of m log = new.
Proof.
  unfold calls_of. intros ->. apply skipn_app_exact.
Qed.

(** A [try] whose handler swallows the exception keeps the log of the
    body and returns normally. *)
Lemma try_swallow {A : Type} (m : M A) (log : list Call) :
  try_except (x <- m ;; ret tt) (fun e => ret tt) log = (inr tt, snd (m log)).
Proof.
  unfold try_except, bind. destruct (m log) as [[e|a] log']; reflexivity.
Qed.

Section ClientFacts.

Variable env : Env.

(** With a key configured, [execute_monday_query] issues exactly one call,
    whatever the outcome; without a key it issues none. *)
Lemma execute_monday_query_log (q : Query) (v : option json) (log : list Call) :
  snd (execute_monday_query env q v log) =
  if api_key_configured env then (log ++ [mkCall q v])%list else log.
Proof.
  unfold execute_monday_query.
  destruct (api_key_configured env); simpl; [|reflexivity].
  unfold try_except, bind; simpl.
  destruct (requests_post env log (mkCall q v)) as [msg|sc text body]; simpl; [reflexivity|].
  destruct (negb (sc =? 200)%Z); simpl; [reflexivity|].
  destruct body as [msg|j]; simpl; [reflexivity|].
  destruct (py_contains "errors" j) as [e|[|]]; simpl.
  - destruct e; reflexivity.
  - destruct (py_get j "errors" (JArr [])) as [e|errs]; simpl; [destruct e; reflexivity|].
    destruct (py_iter errs) as [e|items]; simpl; [destruct e; reflexivity|].
    destruct (mapE _ items) as [e|msgs]; simpl; [destruct e; reflexivity|].
    destruct (py_join ", " msgs) as [e|joined]; simpl; [destruct e; reflexivity|].
    reflexivity.
  - reflexivity.
Qed.

Lemma execute_monday_query_no_key (q : Query) (v : option json) (log : list Call) :
  api_key_configured env = false ->
  execute_monday_query env q v log =
  (inl (HTTPException 500 "Monday.com API key not configured"), log).
Proof.
  intros H. unfold execute_monday_query. rewrite H. reflexivity.
Qed.

(** A 200 response whose body has no ["errors"] is returned as it is. *)
Lemma execute_monday_query_ok (q : Query) (v : option json) (log : list Call)
      (text : string) (body : json) :
  api_key_configured env = true ->
  requests_post env log (mkCall q v) = Response 200 text (inr body) ->
  py_contains "errors" body = inr false ->
  execute_monday_query env q v log = (inr body, (log ++ [mkCall q v])%list).
Proof.
  intros Hk Hr He. unfold execute_monday_query. rewrite Hk. simpl.
  unfold try_except, bind; simpl. rewrite Hr. simpl. rewrite He. reflexivity.
Qed.

(** A response with another status raises an [HTTPException] with that
    status. *)
Lemma execute_monday_query_non_200 (q : Query) (v : option json) (log : list Call)
      (sc : Z) (text : string) (body : string + json) :
  api_key_configured env = true ->
  requests_post env log (mkCall q v) = Response sc text body ->
  sc <> 200%Z ->
  execute_monday_query env q v log =
  (inl (HTTPException sc ("Error from Monday.com API: " ++ text)), (log ++ [mkCall q v])%list).
Proof.
  intros Hk Hr Hs. unfold execute_monday_query. rewrite Hk. simpl.
  unfold try_except, bind; simpl. rewrite Hr. simpl.
  destruct (sc =? 200)%Z eqn:E; [apply Z.eqb_eq in E; contradiction|]. reflexivity.
Qed.

(** A 200 response whose body is a dict with an ["errors"] key raises,
    whatever is stored under the key. *)
Lemma execute_monday_query_errors_key (q : Query) (v : option json) (log : list Call)
      (text : string) (kvs : list (string * json)) (errors : json) :
  api_key_configured env = true ->
  requests_post env log (mkCall q v) = Response 200 text (inr (JObj kvs)) ->
  dict_get kvs "errors" = Some errors ->
  exists e, fst (execute_monday_query env q v log) = inl e.
Proof.
  intros Hk Hr He. unfold execute_monday_query. rewrite Hk. simpl.
  unfold try_except, bind; simpl. rewrite Hr. simpl. rewrite He. simpl.
  destruct (py_iter errors) as [e|items]; simpl;
    [destruct e; eexists; reflexivity|].
  destruct (mapE _ items) as [e|msgs]; simpl;
    [destruct e; eexists; reflexivity|].
  destruct (py_join ", " msgs) as [e|joined]; simpl;
    [destruct e; eexists; reflexivity|].
  eexists; reflexivity.
Qed.

End ClientFacts.

(* ===================================================================== *)
(** ** Parent -> subitems: what the loop issues *)
(* ===================================================================== *)

Section ParentUpdateFacts.

Variable env : Env.
Hypothesis key : api_key_configured env = true.

Lemma update_subitem_spec (date_value subitem : json) (log : list Call) :
  subitem_shaped subitem = true ->
  update_subitem env date_value subitem log =
  (inr tt, if has_ids subitem
           then (log ++ [subitem_mutation date_value subitem])%list
           else log).
Proof.
  intros Hs. destruct subitem as [| | | | |xs|kvs]; try discriminate.
  unfold update_subitem, has_ids, subitem_mutation, subitem_id_of, subitem_board_id_of, field.
  simpl in Hs. unfold bind at 1. simpl.
  destruct (dict_get kvs "id") as [i|]; simpl;
    (unfold bind at 1; simpl);
    (destruct (dict_get kvs "name") as [n|]; simpl);
    (unfold bind at 1; simpl);
    (destruct (dict_get kvs "board") as [[| | | | |bx|b]|]; try discriminate; simpl);
    (unfold bind at 1; simpl);
    try (destruct (dict_get b "id") as [bi|]; simpl);
    try reflexivity;
    try (destruct (py_truthy i); simpl; [|reflexivity]);
    try (destruct (py_truthy bi); simpl; [|reflexivity]);
    try reflexivity;
    rewrite try_swallow, execute_monday_query_log, key; reflexivity.
Qed.

Lemma update_subitems_spec (date_value : json) (subitems : list json) :
  forallb subitem_shaped subitems = true ->
  forall log,
    update_subitems env date_value subitems log =
    (inr tt, (log ++ map (subitem_mutation date_value) (filter has_ids subitems))%list).
Proof.
  induction subitems as [|s rest IH]; intros Hs log; simpl.
  - rewrite app_nil_r. reflexivity.
  - simpl in Hs. apply andb_true_iff in Hs. destruct Hs as [Hs Hrest].
    unfold bind. rewrite (update_subitem_spec _ _ _ Hs).
    rewrite (IH Hrest). destruct (has_ids s); simpl.
    + rewrite <- app_assoc. reflexivity.
    + reflexivity.
Qed.

End ParentUpdateFacts.

(* ===================================================================== *)
(** ** Parent -> subitems: the whole routine *)
(* ===================================================================== *)

Lemma py_get1_obj (kvs : list (string * json)) (k : string) :
  py_get1 (JObj kvs) k = inr (field kvs k).
Proof.
  unfold py_get1, py_get, field. destruct (dict_get kvs k); reflexivity.
Qed.

Lemma mutation_calls_app (l r : list Call) :
  mutation_calls (l ++ r)%list = (mutation_calls l ++ mutation_calls r)%list.
Proof. apply filter_app. Qed.

Lemma mutation_calls_subitems (date_value : json) (subitems : list json) :
  mutation_calls (map (subitem_mutation date_value) subitems) =
  map (subitem_mutation date_value) subitems.
Proof.
  induction subitems as [|s rest IH]; simpl; [reflexivity|].
  unfold mutation_calls in *. simpl. rewrite IH. reflexivity.
Qed.

Lemma filter_all {A : Type} (p : A -> bool) (l : list A) :
  forallb p l = true -> filter p l = l.
Proof.
  induction l as [|a l IH]; simpl; intros H; [reflexivity|].
  apply andb_true_iff in H. destruct H as [Ha Hl]. rewrite Ha, (IH Hl). reflexivity.
Qed.

Section ParentUpdate.

Variable env : Env.
Hypothesis key : api_key_configured env = true.

(** The run of [process_date_automation] on a well-shaped answer. *)
Lemma process_date_automation_run
      (webhook_data : json) (event : list (string * json)) (log : list Call)
      (text : string) (result date_value : json) (subitems : list json) :
  py_get webhook_data "event" (JObj []) = inr (JObj event) ->
  py_truthy (event_item_id event) = true ->
  requests_post env log (mkCall (ItemsWithSubitems (event_item_id event)) None)
    = Response 200 text (inr result) ->
  parent_view result = Some (date_value, subitems) ->
  py_truthy date_value = true ->
  py_eq_str date_value "null" = false ->
  forallb subitem_shaped subitems = true ->
  process_date_automation env webhook_data log =
  (inr tt,
   (log ++ mkCall (ItemsWithSubitems (event_item_id event)) None
        :: map (subitem_mutation date_value) (filter has_ids subitems))%list).
Proof.
  intros Hev Hid Hresp Hview Hv Hnull Hshape.
  unfold process_date_automation.
  unfold bind at 1. simpl. rewrite Hev.
  rewrite !py_get1_obj. unfold bind at 1 2 3. simpl.
  fold (event_item_id event). rewrite Hid. simpl.
  destruct result as [| | | | |xs|r]; try discriminate. simpl in Hview.
  destruct (dict_get r "errors") eqn:Eerr; try discriminate.
  destruct (dict_get r "data") as [[| | | | |dx|data]|] eqn:Edata; try discriminate.
  destruct (dict_get data "items") as [[| | | | |[|[| | | | |px|parent] others]|ix]|] eqn:Eitems;
    try discriminate.
  destruct (dict_get parent "column_values") as [[| | | | |[|[| | | | |cx|col] cols]|cvx]|] eqn:Ecv;
    try discriminate.
  destruct (dict_get parent "subitems") as [[| | | | |subs|sx]|] eqn:Esub; try discriminate.
  destruct (dict_get col "value") as [v|] eqn:Eval; try discriminate.
  injection Hview as -> ->.
  unfold try_except, bind at 1.
  rewrite (execute_monday_query_ok env _ _ _ text (JObj r) key Hresp)
    by (simpl; rewrite Eerr; reflexivity).
  assert (Hcol : py_truthy (JObj col) = true)
    by (destruct col; [discriminate Eval|reflexivity]).
  simpl in Hcol.
  unfold bind, py_get1; simpl. rewrite Edata; simpl. rewrite Eitems; simpl.
  destruct (dict_get parent "name"); simpl;
    rewrite Ecv; simpl; rewrite Hcol; simpl; unfold py_get; rewrite Eval; simpl;
    (destruct (dict_get col "text"); simpl);
    rewrite Hv, Hnull; simpl; rewrite Esub; simpl.
  all: destruct subitems as [|s rest]; simpl negb; cbv iota;
    [ reflexivity | ].
  all: rewrite (update_subitems_spec env key date_value (s :: rest) Hshape);
    rewrite <- app_assoc; reflexivity.
Qed.

End ParentUpdate.

Section NoDate.

Variable env : Env.

(** When [execute_monday_query] returns, the service answered 200 with
    the returned body, and one call was issued. *)
Lemma execute_monday_query_returns (q : Query) (v : option json) (log log' : list Call)
      (result : json) :
  execute_monday_query env q v log = (inr result, log') ->
  (exists text, requests_post env log (mkCall q v) = Response 200 text (inr result))
  /\ log' = (log ++ [mkCall q v])%list.
Proof.
  unfold execute_monday_query.
  destruct (api_key_configured env); simpl; [|discriminate].
  unfold try_except, bind; simpl.
  destruct (requests_post env log (mkCall q v)) as [msg|sc text body]; simpl; [discriminate|].
  destruct (sc =? 200)%Z eqn:Esc; simpl; [|discriminate].
  apply Z.eqb_eq in Esc. subst sc.
  destruct body as [msg|j]; simpl; [discriminate|].
  destruct (py_contains "errors" j) as [e|[|]]; simpl.
  - destruct e; discriminate.
  - destruct (py_get j "errors" (JArr [])) as [e|errs]; simpl; [destruct e; discriminate|].
    destruct (py_iter errs) as [e|items]; simpl; [destruct e; discriminate|].
    destruct (mapE _ items) as [e|msgs]; simpl; [destruct e; discriminate|].
    destruct (py_join ", " msgs) as [e|joined]; simpl; [destruct e; discriminate|].
    discriminate.
  - intros H. injection H as -> <-. split; [exists text|]; reflexivity.
Qed.

(** Without a date value the routine issues the query at most. *)
Lemma process_date_automation_no_date_log (webhook_data : json) (log : list Call) :
  (forall event text result,
      py_get webhook_data "event" (JObj []) = inr (JObj event) ->
      requests_post env log (mkCall (ItemsWithSubitems (event_item_id event)) None)
        = Response 200 text (inr result) ->
      date_value_missing result = true) ->
  query_at_most log (snd (process_date_automation env webhook_data log)).
Proof.
  intros Hmiss. unfold process_date_automation.
  unfold bind at 1; simpl.
  destruct (py_get webhook_data "event" (JObj [])) as [e|event]; [left; reflexivity|].
  destruct event as [| | | | |xs|event]; try (left; reflexivity).
  specialize (Hmiss event).
  rewrite !py_get1_obj. unfold bind at 1 2 3. simpl.
  fold (event_item_id event).
  set (item_id := event_item_id event) in *.
  destruct (py_truthy item_id); simpl; [|left; reflexivity].
  unfold try_except. unfold bind at 1.
  destruct (execute_monday_query env (ItemsWithSubitems item_id) None log)
    as [[e|result] log'] eqn:Ex.
  - pose proof (execute_monday_query_log env (ItemsWithSubitems item_id) None log) as Hl.
    rewrite Ex in Hl. simpl in Hl. simpl.
    destruct (api_key_configured env); subst log'; [right; exists item_id|left]; reflexivity.
  - apply execute_monday_query_returns in Ex. destruct Ex as [[text Hr] ->].
    specialize (Hmiss _ _ eq_refl Hr). right. exists item_id.
    unfold date_value_missing, fetched_date_value in Hmiss.
    unfold bind, bindE in *. simpl in *.
    destruct (py_get result "data" (JObj [])) as [e|data]; simpl; [reflexivity|].
    destruct (py_get data "items" (JArr [])) as [e|items]; simpl; [reflexivity|].
    destruct (py_truthy items); simpl in *; [|reflexivity].
    destruct (py_index0 items) as [e|parent]; simpl; [reflexivity|].
    destruct (py_get parent "name" (JStr "Unknown")) as [e|name]; simpl; [reflexivity|].
    destruct (py_get1 parent "column_values") as [e|cv]; simpl; [reflexivity|].
    destruct (py_truthy cv); simpl in *; [|reflexivity].
    destruct (py_get parent "column_values" (JArr [])) as [e|cvs]; simpl; [reflexivity|].
    destruct (py_index0 cvs) as [e|date_column]; simpl; [reflexivity|].
    destruct (py_truthy date_column); simpl in *; [|reflexivity].
    destruct (py_get1 date_column "value") as [e|date_value]; simpl; [reflexivity|].
    destruct (py_get date_column "text" (JStr "")) as [e|date_text]; simpl; [reflexivity|].
    rewrite Hmiss. reflexivity.
Qed.

Lemma process_date_automation_no_date (webhook_data : json) (log : list Call) :
  (forall event text result,
      py_get webhook_data "event" (JObj []) = inr (JObj event) ->
      requests_post env log (mkCall (ItemsWithSubitems (event_item_id event)) None)
        = Response 200 text (inr result) ->
      date_value_missing result = true) ->
  mutation_calls (calls_of (process_date_automation env webhook_data) log) = [].
Proof.
  intros Hmiss. unfold calls_of.
  destruct (process_date_automation_no_date_log webhook_data log Hmiss) as [->|[item_id ->]].
  - replace log with (log ++ [])%list at 2 by apply app_nil_r.
    rewrite skipn_app_exact. reflexivity.
  - rewrite skipn_app_exact. reflexivity.
Qed.

End NoDate.

(* ===================================================================== *)
(** ** Subitem -> parent *)
(* ===================================================================== *)

Arguments py_all : simpl never.

Section SubitemSync.

Variable env : Env.

Lemma march_11_value_truthy : py_truthy (march_11_value env) = true.
Proof. reflexivity. Qed.

Lemma synced_value_truthy (fetched : json) : py_truthy (synced_value env fetched) = true.
Proof.
  unfold synced_value, empty_or_null.
  destruct (py_truthy fetched) eqn:Ht; simpl.
  - destruct (py_eq_str fetched "null"); [apply march_11_value_truthy|exact Ht].
  - apply march_11_value_truthy.
Qed.

(** Missing identifiers: nothing is issued and the routine returns. *)
Lemma sync_subitem_with_parent_missing_ids
      (webhook_data : json) (event : list (string * json)) (log : list Call) :
  py_get webhook_data "event" (JObj []) = inr (JObj event) ->
  py_all (required_ids event) = false ->
  sync_subitem_with_parent env webhook_data log = (inr tt, log).
Proof.
  intros Hev Hall. unfold sync_subitem_with_parent.
  unfold bind at 1. simpl. rewrite Hev.
  rewrite !py_get1_obj. unfold bind; simpl.
  unfold required_ids, event_subitem_id in Hall. rewrite Hall. reflexivity.
Qed.

Hypothesis key : api_key_configured env = true.

(** The run of [sync_subitem_with_parent] when both lookups succeed and
    both date columns are located. *)
Lemma sync_subitem_with_parent_run
      (webhook_data : json) (event : list (string * json)) (log : list Call)
      (parent_text subitem_text : string) (parent_result subitem_result : json)
      (parent_col subitem_col : list (string * json)) :
  py_get webhook_data "event" (JObj []) = inr (JObj event) ->
  py_all (required_ids event) = true ->
  requests_post env log (parent_lookup event)
    = Response 200 parent_text (inr parent_result) ->
  py_contains "errors" parent_result = inr false ->
  requests_post env (log ++ [parent_lookup event])%list (subitem_lookup event)
    = Response 200 subitem_text (inr subitem_result) ->
  py_contains "errors" subitem_result = inr false ->
  located_date_column parent_result "date7" = Some (JObj parent_col) ->
  located_date_column subitem_result "date_mkn2am1b" = Some (JObj subitem_col) ->
  sync_subitem_with_parent env webhook_data log =
  (inr tt,
   (log ++ [parent_lookup event;
            subitem_lookup event;
            subitem_date_mutation event (field subitem_col "id")
                                  (synced_value env (field parent_col "value"))])%list).
Proof.
  intros Hev Hall Hp Hpe Hs Hse Hpc Hsc.
  unfold sync_subitem_with_parent.
  unfold bind at 1. simpl. rewrite Hev.
  rewrite !py_get1_obj. unfold bind at 1 2 3 4 5. simpl.
  unfold required_ids, event_subitem_id in Hall. rewrite Hall. simpl.
  unfold bind at 1.
  fold (parent_lookup event).
  unfold parent_lookup in *.
  rewrite (execute_monday_query_ok env _ _ _ parent_text parent_result key Hp Hpe).
  unfold bind at 1.
  unfold subitem_lookup, event_subitem_id in *.
  rewrite (execute_monday_query_ok env _ _ _ subitem_text subitem_result key Hs Hse).
  unfold located_date_column in Hpc, Hsc.
  unfold try_except, bind, bindE in *. simpl in *.
  destruct (py_get parent_result "data" (JObj [])) as [e|pdata]; [discriminate|].
  destruct (py_get pdata "items" (JArr [])) as [e|pitems]; [discriminate|].
  destruct (py_truthy pitems); simpl in *; [|discriminate].
  destruct (py_index0 pitems) as [e|pitem]; [discriminate|].
  destruct (py_get pitem "name" (JStr "Unknown")) as [e|pname]; [discriminate|].
  destruct (find_date_column pitem "date7") as [e|pcol]; [discriminate|].
  destruct (py_truthy pcol); simpl in *; [|discriminate].
  injection Hpc as ->. rewrite py_get1_obj.
  destruct (py_get subitem_result "data" (JObj [])) as [e|sdata]; [discriminate|].
  destruct (py_get sdata "items" (JArr [])) as [e|sitems]; [discriminate|].
  destruct (py_truthy sitems); simpl in *; [|discriminate].
  destruct (py_index0 sitems) as [e|sitem]; [discriminate|].
  destruct (py_get sitem "name" (JStr "Unknown")) as [e|sname]; [discriminate|].
  destruct (find_date_column sitem "date_mkn2am1b") as [e|scol]; [discriminate|].
  destruct (py_truthy scol); simpl in *; [|discriminate].
  injection Hsc as ->.
  unfold synced_value, empty_or_null, subitem_date_mutation, field, event_subitem_id.
  unfold py_get1, py_get.
  pose proof march_11_value_truthy as Hm.
  remember (march_11_value env) as m eqn:Em. clear Em.
  destruct (dict_get subitem_col "id") as [cid|];
    (destruct (dict_get parent_col "value") as [v|]; simpl;
     [destruct (py_truthy v) eqn:Ht; simpl;
      [destruct (py_eq_str v "null"); simpl; [rewrite Hm|rewrite Ht]|rewrite Hm]
     |rewrite Hm]);
    match goal with
    | |- context [execute_monday_query env ?q ?vars ?l] =>
        pose proof (execute_monday_query_log env q vars l) as Hlog;
        destruct (execute_monday_query env q vars l) as [[e|r] log']
    end; rewrite key in Hlog; simpl in Hlog; subst log'; simpl;
    rewrite <- !app_assoc; reflexivity.
Qed.

End SubitemSync.

(* ===================================================================== *)
(** ** The webhook handler *)
(* ===================================================================== *)

(** A [try] around a [unit] computation whose handler swallows the
    exception always returns. *)
Lemma try_except_unit (m : M unit) (log : list Call) :
  fst (try_except m (fun e => ret tt) log) = inr tt.
Proof.
  unfold try_except. destruct (m log) as [[e|[]] log']; reflexivity.
Qed.

Section Handler.

Variable env : Env.

(** Once the event is a dict, [process_date_automation] cannot raise:
    everything after the reading of the item id is inside its [try]. *)
Lemma process_date_automation_returns
      (webhook_data : json) (event : list (string * json)) (log : list Call) :
  py_get webhook_data "event" (JObj []) = inr (JObj event) ->
  fst (process_date_automation env webhook_data log) = inr tt.
Proof.
  intros Hev. unfold process_date_automation.
  unfold bind at 1. simpl. rewrite Hev.
  rewrite !py_get1_obj. unfold bind at 1 2 3. simpl.
  destruct (negb (py_truthy _)); [reflexivity|].
  apply try_except_unit.
Qed.

(** The handler catches every exception: it always returns a response. *)
Lemma monday_webhook_returns (request : Request) (log : list Call) :
  exists response, fst (monday_webhook env request log) = inr response.
Proof.
  unfold monday_webhook, try_except.
  match goal with
  | |- context [let (_, _) := ?body log in _] => destruct (body log) as [[e|a] log']
  end; eexists; reflexivity.
Qed.

(** The two answers the handler builds itself hold strings only: FastAPI
    sends them with status 200. *)
Lemma handler_answers_status (e : exn) :
  fastapi_status (inr success_response) = 200%Z
  /\ fastapi_status (inr (error_response env e)) = 200%Z.
Proof.
  split; reflexivity.
Qed.

Lemma parse_body_parsed (request : Request) (body : json) (log : list Call) :
  parsed_body request = Some body ->
  parse_body request log = (inr body, log).
Proof.
  unfold parsed_body, parse_body.
  destruct (request_json request) as [msg|b].
  - intros ->. reflexivity.
  - intros H. injection H as ->. reflexivity.
Qed.

(** A request of the parent-update path is answered with success,
    whatever happens to the calls [process_date_automation] issues. *)
Lemma monday_webhook_parent_update (request : Request) (log : list Call) :
  parent_update_request request = true ->
  fst (monday_webhook env request log) = inr success_response.
Proof.
  unfold parent_update_request. intros H.
  destruct (parsed_body request) as [[| | | | |xs|body]|] eqn:Hp; try discriminate.
  destruct (dict_get body "challenge") eqn:Hc; try discriminate.
  destruct (dict_get body "event") as [[| | | | |ex|event]|] eqn:He; try discriminate.
  apply andb_true_iff in H. destruct H as [Htype Hparent].
  apply negb_true_iff in Hparent.
  pose proof (process_date_automation_returns (JObj body) event log) as Hret.
  simpl in Hret. rewrite He in Hret. specialize (Hret eq_refl).
  unfold field in Htype, Hparent.
  unfold monday_webhook, try_except, bind, liftE, py_get1, py_get.
  rewrite (parse_body_parsed _ _ _ Hp). rewrite He. simpl. rewrite Hc.
  destruct (dict_get event "type") as [t|];
    destruct (dict_get event "parentItemId") as [p|];
    rewrite Htype; rewrite Hparent;
    destruct (process_date_automation env (JObj body) log) as [[e|[]] log'];
    simpl in Hret; try discriminate; reflexivity.
Qed.

(** A challenge whose event, if any, is a dict is echoed. *)
Lemma monday_webhook_challenge
      (request : Request) (body : list (string * json)) (challenge : json)
      (log : list Call) :
  parsed_body request = Some (JObj body) ->
  dict_get body "challenge" = Some challenge ->
  (dict_get body "event" = None \/ exists event, dict_get body "event" = Some (JObj event)) ->
  monday_webhook env request log = (inr (JObj body), log).
Proof.
  intros Hp Hc He.
  unfold monday_webhook, try_except, bind, liftE, py_get1, py_get.
  rewrite (parse_body_parsed _ _ _ Hp).
  destruct He as [He|[event He]]; rewrite He; simpl; rewrite Hc.
  - reflexivity.
  - destruct (dict_get event "type"); reflexivity.
Qed.

End Handler.

(* ===================================================================== *)
(** ** The fallback date *)
(* ===================================================================== *)

Lemma json_escape_app (s t : string) :
  json_escape (s ++ t) = json_escape s ++ json_escape t.
Proof.
  induction s as [|c s IH]; simpl; [reflexivity|].
  destruct (c =? ascii_of_nat 34)%char; [simpl; rewrite IH; reflexivity|].
  destruct (c =? ascii_of_nat 92)%char; simpl; rewrite IH; reflexivity.
Qed.

(** Digits need no escaping. *)
Lemma json_escape_digits (u : Decimal.uint) :
  json_escape (NilEmpty.string_of_uint u) = NilEmpty.string_of_uint u.
Proof.
  induction u; simpl; try rewrite IHu; reflexivity.
Qed.

Lemma json_escape_decimal (n : N) : json_escape (decimal n) = decimal n.
Proof. apply json_escape_digits. Qed.

Lemma string_append_assoc (s t u : string) : (s ++ t) ++ u = s ++ (t ++ u).
Proof.
  induction s as [|c s IH]; simpl; [reflexivity|]. rewrite IH. reflexivity.
Qed.

Lemma march_11_value_text (env : Env) :
  march_11_value env = JStr (json_dumps (march_11_object (today_year env)))
  /\ json_dumps (march_11_object (today_year env)) = march_11_text (today_year env).
Proof.
  split; [reflexivity|].
  unfold march_11_object, march_11_text. simpl.
  rewrite json_escape_app, json_escape_decimal. simpl.
  rewrite !string_append_assoc. reflexivity.
Qed.

(** The messages of well-formed error objects, and their joining. *)
Lemma error_messages_of_objects (items : list json) :
  forallb error_object items = true ->
  mapE (fun error => py_get error "message" (JStr "Unknown error")) items
  = inr (map (fun error => JStr (error_message error)) items).
Proof.
  induction items as [|error items IH]; simpl; intros H; [reflexivity|].
  apply andb_true_iff in H. destruct H as [Herror Hitems].
  rewrite (IH Hitems).
  destruct error as [| | | | |xs|kvs]; try discriminate.
  simpl in *. destruct (dict_get kvs "message") as [[| | | |message| |]|];
    try discriminate; reflexivity.
Qed.

Lemma py_join_strings (sep : string) (items : list json) :
  py_join sep (map (fun error => JStr (error_message error)) items)
  = inr (join_strings sep (map error_message items)).
Proof.
  induction items as [|error items IH]; simpl; [reflexivity|].
  destruct items as [|error' items]; [reflexivity|].
  simpl in IH. simpl. rewrite IH. reflexivity.
Qed.

(* ===================================================================== *)
(** ** Properties of the specification *)
(* ===================================================================== *)

Import Examples.

(** *** C1: one mutation per subitem on the parent-update path *)

(** C1, as the code has it.  The event carries an item id, the key is
    configured, and the answer to the parent query shows a parent item
    whose date value is neither empty nor ["null"] and a list of subitems
    (each a dict whose board, if any, is a dict).  Then
    [process_date_automation] returns normally and the mutation calls it
    issues are, in order, one for each subitem that carries both an id and
    a board id: the mutation has that subitem's board id as [boardId], its
    id as [itemId] and the parent's raw date value as [value].  A subitem
    lacking either identifier is skipped; when all N subitems carry both,
    exactly N mutation calls are issued. *)
Theorem process_date_automation_mutations
        (env : Env) (webhook_data : json) (event : list (string * json))
        (log : list Call) (text : string) (result date_value : json)
        (subitems : list json) :
  api_key_configured env = true ->
  py_get webhook_data "event" (JObj []) = inr (JObj event) ->
  py_truthy (event_item_id event) = true ->
  requests_post env log (mkCall (ItemsWithSubitems (event_item_id event)) None)
    = Response 200 text (inr result) ->
  parent_view result = Some (date_value, subitems) ->
  empty_or_null date_value = false ->
  forallb subitem_shaped subitems = true ->
  fst (process_date_automation env webhook_data log) = inr tt
  /\ mutation_calls (calls_of (process_date_automation env webhook_data) log)
     = map (subitem_mutation date_value) (filter has_ids subitems)
  /\ (forall subitem,
         board_variable (subitem_mutation date_value subitem)
           = Some (subitem_board_id_of subitem)
         /\ value_variable (subitem_mutation date_value subitem) = Some date_value)
  /\ (forallb has_ids subitems = true ->
      length (mutation_calls (calls_of (process_date_automation env webhook_data) log))
      = length subitems).
Proof.
  intros Hkey Hev Hid Hresp Hview Hdate Hshape.
  apply orb_false_iff in Hdate. destruct Hdate as [Htruthy Hnull].
  apply negb_false_iff in Htruthy.
  pose proof (process_date_automation_run env Hkey webhook_data event log text result
                date_value subitems Hev Hid Hresp Hview Htruthy Hnull Hshape) as Hrun.
  assert (Hcalls :
            mutation_calls (calls_of (process_date_automation env webhook_data) log)
            = map (subitem_mutation date_value) (filter has_ids subitems)).
  { rewrite (calls_of_app _ log _ (f_equal snd Hrun)).
    change (mutation_calls
              ([mkCall (ItemsWithSubitems (event_item_id event)) None]
                 ++ map (subitem_mutation date_value) (filter has_ids subitems))%list = 
            map (subitem_mutation date_value) (filter has_ids subitems)).
    rewrite mutation_calls_app, mutation_calls_subitems. reflexivity. }
  split; [rewrite Hrun; reflexivity|].
  split; [exact Hcalls|].
  split; [intros subitem; split; reflexivity|].
  intros Hall. rewrite Hcalls, (filter_all _ _ Hall). apply length_map.
Qed.

(** Three subitems with their ids: three mutations, each on the subitem's
    own board and with the parent's raw value. *)
Lemma process_date_automation_mutations_witness :
  fst (process_date_automation
         (env_of (parent_service (parent_with may_first [subitem_a; subitem_c])))
         parent_event []) = inr tt
  /\ mutation_calls
       (calls_of (process_date_automation
                    (env_of (parent_service (parent_with may_first [subitem_a; subitem_c])))
                    parent_event) [])
     = [subitem_mutation may_first subitem_a; subitem_mutation may_first subitem_c].
Proof.
  pose proof (process_date_automation_mutations
                (env_of (parent_service (parent_with may_first [subitem_a; subitem_c])))
                parent_event
                [("type", JStr "update_column_value"); ("pulseId", JNum 77);
                 ("boardId", JNum 5)]
                [] "" (parent_with may_first [subitem_a; subitem_c])
                may_first [subitem_a; subitem_c]
                eq_refl eq_refl eq_refl eq_refl eq_refl eq_refl eq_refl)
    as [Hret [Hcalls _]].
  split; [exact Hret|exact Hcalls].
Defined.

(** C1 as stated fails: the parent has a date and a list of two subitems,
    one of which comes without a board; one mutation is issued, not two. *)
Lemma process_date_automation_skips_subitem :
  parent_view (parent_with may_first [subitem_a; subitem_b])
    = Some (may_first, [subitem_a; subitem_b])
  /\ empty_or_null may_first = false
  /\ length [subitem_a; subitem_b] = 2
  /\ mutation_calls
       (calls_of (process_date_automation
                    (env_of (parent_service (parent_with may_first [subitem_a; subitem_b])))
                    parent_event) [])
     = [subitem_mutation may_first subitem_a]
  /\ length (mutation_calls
               (calls_of (process_date_automation
                            (env_of (parent_service
                                       (parent_with may_first [subitem_a; subitem_b])))
                            parent_event) []))
     <> length [subitem_a; subitem_b].
Proof.
  repeat split; try reflexivity. vm_compute. discriminate.
Qed.

(** *** C2: the challenge is echoed *)

(** C2 fails on the code.  The payload is a dict with a ["challenge"] key
    whose ["event"] is [null].  The handler reads [event.get("type")]
    (lines 130-131, for its log) before it looks for the challenge (line
    136): the read raises [AttributeError], the echo is never reached,
    and the answer is the error response, not the payload. *)
Theorem monday_webhook_challenge_not_echoed :
  py_contains "challenge" challenge_with_null_event = inr true
  /\ parsed_body (request_of challenge_with_null_event) = Some challenge_with_null_event
  /\ monday_webhook (env_of down_service) (request_of challenge_with_null_event) []
     = (inr (error_response (env_of down_service) AttributeError), [])
  /\ fst (monday_webhook (env_of down_service) (request_of challenge_with_null_event) [])
     <> inr challenge_with_null_event.
Proof.
  repeat split; try reflexivity. vm_compute. discriminate.
Qed.

(** *** C3: upstream failures *)

(** C3, as the code has it.  When the remote service answers a call with
    a status other than 200, or with a body whose ["errors"] is a
    non-empty array, [execute_monday_query] raises, having issued that one
    call.  The webhook handler never raises, whatever the service answers:
    it always returns a response.  On the parent-update path the
    exception does not even reach the handler: it is caught inside
    [process_date_automation], and the response is
    [{"status": "success"}], sent with status 200. *)
Theorem upstream_failure_contained
        (env : Env) (q : Query) (v : option json) (log : list Call)
        (status_code : Z) (text : string) (body : string + json)
        (request : Request) (log' : list Call) :
  api_key_configured env = true ->
  requests_post env log (mkCall q v) = Response status_code text body ->
  upstream_failure status_code body = true ->
  (exists e, fst (execute_monday_query env q v log) = inl e)
  /\ snd (execute_monday_query env q v log) = (log ++ [mkCall q v])%list
  /\ (exists response, fst (monday_webhook env request log') = inr response)
  /\ (parent_update_request request = true ->
      fst (monday_webhook env request log') = inr success_response
      /\ fastapi_status (fst (monday_webhook env request log')) = 200%Z).
Proof.
  intros Hkey Hresp Hfail.
  split; [|split; [|split]].
  - unfold upstream_failure in Hfail.
    destruct (status_code =? 200)%Z eqn:Hsc; simpl in Hfail.
    + apply Z.eqb_eq in Hsc. subst status_code.
      destruct body as [msg|[| | | | |xs|kvs]]; try discriminate.
      destruct (dict_get kvs "errors") as [errors|] eqn:He; try discriminate.
      exact (execute_monday_query_errors_key env q v log text kvs errors Hkey Hresp He).
    + apply Z.eqb_neq in Hsc.
      rewrite (execute_monday_query_non_200 env q v log status_code text body Hkey Hresp Hsc).
      eexists. reflexivity.
  - rewrite execute_monday_query_log, Hkey. reflexivity.
  - apply monday_webhook_returns.
  - intros Hparent.
    rewrite (monday_webhook_parent_update env request log' Hparent).
    split; reflexivity.
Qed.

(** The service is down while an [update_column_value] event is handled. *)
Lemma upstream_failure_contained_witness :
  (exists e,
      fst (execute_monday_query (env_of down_service)
                                (ItemsWithSubitems (JNum 77)) None []) = inl e)
  /\ fst (monday_webhook (env_of down_service) (request_of parent_event) [])
     = inr (success_response)
  /\ fastapi_status (fst (monday_webhook (env_of down_service) (request_of parent_event) []))
     = 200%Z.
Proof.
  pose proof (upstream_failure_contained
                (env_of down_service) (ItemsWithSubitems (JNum 77)) None []
                500 "Internal Server Error" (inl "no JSON")
                (request_of parent_event) []
                eq_refl eq_refl eq_refl)
    as [Hraise [_ [_ Hsuccess]]].
  split; [exact Hraise|exact (Hsuccess eq_refl)].
Defined.

(** C3 as stated fails: on the parent-update path the service answers the
    only call with status 500, [execute_monday_query] raises, and the
    handler's response is the success response, not an error response. *)
Lemma upstream_failure_answered_with_success :
  requests_post (env_of down_service) [] (mkCall (ItemsWithSubitems (JNum 77)) None)
    = Response 500 "Internal Server Error" (inl "no JSON")
  /\ fst (execute_monday_query (env_of down_service) (ItemsWithSubitems (JNum 77)) None [])
     = inl (HTTPException 500 "Error from Monday.com API: Internal Server Error")
  /\ calls_of (monday_webhook (env_of down_service) (request_of parent_event)) []
     = [mkCall (ItemsWithSubitems (JNum 77)) None]
  /\ fst (monday_webhook (env_of down_service) (request_of parent_event) [])
     = inr (JObj [("status", JStr "success")])
  /\ (forall e,
         fst (monday_webhook (env_of down_service) (request_of parent_event) [])
         <> inr (error_response (env_of down_service) e)).
Proof.
  repeat split; try reflexivity. intros e. vm_compute. discriminate.
Qed.

(** *** C4: lookup failures on the subitem path *)

(** C4 fails on the code.  The event carries the four identifiers and the
    service is down: the parent lookup, issued before the [try] block of
    [sync_subitem_with_parent] opens, raises, and the exception leaves the
    routine.  (The handler then answers with an error response.) *)
Theorem sync_subitem_with_parent_raises_on_lookup_failure :
  py_all (required_ids subitem_event_fields) = true
  /\ sync_subitem_with_parent (env_of down_service) subitem_event []
     = (inl (HTTPException 500 "Error from Monday.com API: Internal Server Error"),
        [parent_lookup subitem_event_fields])
  /\ fst (monday_webhook (env_of down_service) (request_of subitem_event) [])
     = inr (error_response
              (env_of down_service)
              (HTTPException 500 "Error from Monday.com API: Internal Server Error")).
Proof.
  repeat split; reflexivity.
Qed.

(** *** C5: the status of the handler's answers *)

(** C5 fails on the code for a body that is not JSON.  The
    [HTTPException(status_code=400)] is raised inside the handler's own
    [try] block, whose [except Exception] catches it: the handler returns
    the error response, which is sent with status 200. *)
Theorem malformed_json_answered_with_200 :
  parsed_body malformed_request = None
  /\ fst (monday_webhook (env_of down_service) malformed_request [])
     = inr (error_response
              (env_of down_service)
              (HTTPException 400
                 "Invalid JSON payload: Expecting value: line 1 column 1 (char 0)"))
  /\ fastapi_status (fst (monday_webhook (env_of down_service) malformed_request []))
     = 200%Z
  /\ fastapi_status (fst (parse_body malformed_request []))
     = 400%Z.
Proof.
  repeat split; reflexivity.
Qed.

(** *** C6: the fallback date on the subitem path *)

(** C6.  On the subitem-creation path, when both lookups succeed, both
    date columns are located and the parent's value is empty or ["null"],
    the routine issues, after the two lookups, one mutation whose [value]
    is the JSON text of [{"date": "<current year>-03-11"}]. *)
Theorem sync_subitem_with_parent_fallback
        (env : Env) (webhook_data : json) (event : list (string * json))
        (log : list Call) (parent_text subitem_text : string)
        (parent_result subitem_result : json)
        (parent_col subitem_col : list (string * json)) :
  api_key_configured env = true ->
  py_get webhook_data "event" (JObj []) = inr (JObj event) ->
  py_all (required_ids event) = true ->
  requests_post env log (parent_lookup event)
    = Response 200 parent_text (inr parent_result) ->
  py_contains "errors" parent_result = inr false ->
  requests_post env (log ++ [parent_lookup event])%list (subitem_lookup event)
    = Response 200 subitem_text (inr subitem_result) ->
  py_contains "errors" subitem_result = inr false ->
  located_date_column parent_result "date7" = Some (JObj parent_col) ->
  located_date_column subitem_result "date_mkn2am1b" = Some (JObj subitem_col) ->
  empty_or_null (field parent_col "value") = true ->
  calls_of (sync_subitem_with_parent env webhook_data) log
  = [parent_lookup event;
     subitem_lookup event;
     subitem_date_mutation event (field subitem_col "id")
                           (JStr (json_dumps (march_11_object (today_year env))))]
  /\ json_dumps (march_11_object (today_year env)) = march_11_text (today_year env).
Proof.
  intros Hkey Hev Hall Hp Hpe Hs Hse Hpc Hsc Hempty.
  destruct (march_11_value_text env) as [Hvalue Htext].
  split; [|exact Htext].
  apply calls_of_app.
  rewrite (sync_subitem_with_parent_run env Hkey webhook_data event log
             parent_text subitem_text parent_result subitem_result parent_col subitem_col
             Hev Hall Hp Hpe Hs Hse Hpc Hsc).
  unfold synced_value. rewrite Hempty, Hvalue. reflexivity.
Qed.

(** In 2026, with a parent whose date column holds [null]. *)
Lemma sync_subitem_with_parent_fallback_witness :
  calls_of (sync_subitem_with_parent (env_of (lookup_service JNull)) subitem_event) []
  = [parent_lookup subitem_event_fields;
     subitem_lookup subitem_event_fields;
     subitem_date_mutation
       subitem_event_fields (JStr "date_mkn2am1b")
       (JStr ("{" ++ dquote ++ "date" ++ dquote ++ ": "
                  ++ dquote ++ "2026-03-11" ++ dquote ++ "}"))].
Proof.
  pose proof (sync_subitem_with_parent_fallback
                (env_of (lookup_service JNull)) subitem_event subitem_event_fields []
                "" "" (item_with_column "date7" JNull)
                (item_with_column "date_mkn2am1b" JNull)
                [("id", JStr "date7"); ("type", JStr "date"); ("value", JNull)]
                [("id", JStr "date_mkn2am1b"); ("type", JStr "date"); ("value", JNull)]
                eq_refl eq_refl eq_refl eq_refl eq_refl eq_refl eq_refl eq_refl eq_refl
                eq_refl)
    as [Hcalls _].
  exact Hcalls.
Defined.

(** *** C7: the parent's value is passed on unchanged *)

(** C7.  On the subitem-creation path, when both lookups succeed, both
    date columns are located and the parent's value is neither empty nor
    ["null"], the routine issues, after the two lookups, one mutation
    whose [value] is the very value fetched from the parent's column. *)
Theorem sync_subitem_with_parent_round_trip
        (env : Env) (webhook_data : json) (event : list (string * json))
        (log : list Call) (parent_text subitem_text : string)
        (parent_result subitem_result : json)
        (parent_col subitem_col : list (string * json)) :
  api_key_configured env = true ->
  py_get webhook_data "event" (JObj []) = inr (JObj event) ->
  py_all (required_ids event) = true ->
  requests_post env log (parent_lookup event)
    = Response 200 parent_text (inr parent_result) ->
  py_contains "errors" parent_result = inr false ->
  requests_post env (log ++ [parent_lookup event])%list (subitem_lookup event)
    = Response 200 subitem_text (inr subitem_result) ->
  py_contains "errors" subitem_result = inr false ->
  located_date_column parent_result "date7" = Some (JObj parent_col) ->
  located_date_column subitem_result "date_mkn2am1b" = Some (JObj subitem_col) ->
  empty_or_null (field parent_col "value") = false ->
  calls_of (sync_subitem_with_parent env webhook_data) log
  = [parent_lookup event;
     subitem_lookup event;
     subitem_date_mutation event (field subitem_col "id") (field parent_col "value")]
  /\ map value_variable
         (mutation_calls (calls_of (sync_subitem_with_parent env webhook_data) log))
     = [Some (field parent_col "value")].
Proof.
  intros Hkey Hev Hall Hp Hpe Hs Hse Hpc Hsc Hvalue.
  assert (Hcalls :
            calls_of (sync_subitem_with_parent env webhook_data) log
            = [parent_lookup event;
               subitem_lookup event;
               subitem_date_mutation event (field subitem_col "id")
                                     (field parent_col "value")]).
  { apply calls_of_app.
    rewrite (sync_subitem_with_parent_run env Hkey webhook_data event log
               parent_text subitem_text parent_result subitem_result parent_col subitem_col
               Hev Hall Hp Hpe Hs Hse Hpc Hsc).
    unfold synced_value. rewrite Hvalue. reflexivity. }
  split; [exact Hcalls|]. rewrite Hcalls. reflexivity.
Qed.

(** The parent's column holds the raw value for 1 May 2024. *)
Lemma sync_subitem_with_parent_round_trip_witness :
  map value_variable
      (mutation_calls
         (calls_of (sync_subitem_with_parent (env_of (lookup_service may_first))
                                             subitem_event) []))
  = [Some may_first].
Proof.
  pose proof (sync_subitem_with_parent_round_trip
                (env_of (lookup_service may_first)) subitem_event subitem_event_fields []
                "" "" (item_with_column "date7" may_first)
                (item_with_column "date_mkn2am1b" JNull)
                [("id", JStr "date7"); ("type", JStr "date"); ("value", may_first)]
                [("id", JStr "date_mkn2am1b"); ("type", JStr "date"); ("value", JNull)]
                eq_refl eq_refl eq_refl eq_refl eq_refl eq_refl eq_refl eq_refl eq_refl
                eq_refl)
    as [_ Hvalues].
  exact Hvalues.
Defined.

(** *** C8: no date, no mutation *)

(** C8.  When the answer of the service to the query for the event's item
    shows a date value that is absent, falsy or the string ["null"] (or
    shows no parent item or date column at all),
    [process_date_automation] issues no mutation call.  Nothing is asked
    of the answers for other items, nor of the event, which may be of any
    shape. *)
Theorem process_date_automation_without_date
        (env : Env) (webhook_data : json) (log : list Call) :
  (forall event text result,
      py_get webhook_data "event" (JObj []) = inr (JObj event) ->
      requests_post env log (mkCall (ItemsWithSubitems (event_item_id event)) None)
        = Response 200 text (inr result) ->
      date_value_missing result = true) ->
  mutation_calls (calls_of (process_date_automation env webhook_data) log) = [].
Proof.
  apply process_date_automation_no_date.
Qed.

(** Item 77, the event's item, holds the string ["null"]; the other items
    of the service hold a date. *)
Lemma process_date_automation_without_date_witness :
  mutation_calls
    (calls_of (process_date_automation (env_of MoreExamples.selective_service)
                                       parent_event) [])
  = [].
Proof.
  apply (process_date_automation_without_date
           (env_of MoreExamples.selective_service) parent_event []).
  intros event text result Hev H.
  simpl in Hev. injection Hev as <-.
  simpl in H. injection H as _ <-. reflexivity.
Defined.

(** *** C9: missing identifiers on the subitem path *)

(** C9.  When one of the four identifiers of the event is missing (absent
    or falsy), [sync_subitem_with_parent] issues no call and returns
    normally. *)
Theorem sync_subitem_with_parent_requires_ids
        (env : Env) (webhook_data : json) (event : list (string * json))
        (log : list Call) :
  py_get webhook_data "event" (JObj []) = inr (JObj event) ->
  py_all (required_ids event) = false ->
  fst (sync_subitem_with_parent env webhook_data log) = inr tt
  /\ calls_of (sync_subitem_with_parent env webhook_data) log = [].
Proof.
  intros Hev Hall.
  pose proof (sync_subitem_with_parent_missing_ids env webhook_data event log Hev Hall)
    as Hrun.
  split; [rewrite Hrun; reflexivity|].
  apply calls_of_app. rewrite Hrun. simpl. symmetry. apply app_nil_r.
Qed.

(** The event lacks the parent board id. *)
Lemma sync_subitem_with_parent_requires_ids_witness :
  fst (sync_subitem_with_parent (env_of (lookup_service may_first))
                                subitem_event_no_parent_board []) = inr tt
  /\ calls_of (sync_subitem_with_parent (env_of (lookup_service may_first))
                                        subitem_event_no_parent_board) [] = [].
Proof.
  apply (sync_subitem_with_parent_requires_ids
           (env_of (lookup_service may_first)) subitem_event_no_parent_board
           [("type", JStr "create_pulse"); ("pulseId", JNum 11);
            ("boardId", JNum 900); ("parentItemId", JNum 77)] []);
    reflexivity.
Defined.

(** *** C10: any ["errors"] key is a failure *)

(** C10, as the code has it.  When the service answers 200 with a dict
    that has an ["errors"] key, [execute_monday_query] raises, whatever
    is stored under the key.  When the key holds an array of error
    objects (dicts whose message is a string or absent), the empty array
    included, the exception is the upstream error [HTTPException(400)]
    whose detail lists the messages. *)
Theorem execute_monday_query_errors_key_raises
        (env : Env) (q : Query) (v : option json) (log : list Call)
        (text : string) (kvs : list (string * json)) (errors : json) :
  api_key_configured env = true ->
  requests_post env log (mkCall q v) = Response 200 text (inr (JObj kvs)) ->
  dict_get kvs "errors" = Some errors ->
  (exists e, fst (execute_monday_query env q v log) = inl e)
  /\ (forall items,
         errors = JArr items ->
         forallb error_object items = true ->
         fst (execute_monday_query env q v log)
         = inl (HTTPException 400
                  ("Monday.com API returned errors: "
                     ++ join_strings ", " (map error_message items))))
  /\ (errors = JArr [] ->
      fst (execute_monday_query env q v log)
      = inl (HTTPException 400 "Monday.com API returned errors: ")).
Proof.
  intros Hkey Hresp Herr. split; [|split].
  - exact (execute_monday_query_errors_key env q v log text kvs errors Hkey Hresp Herr).
  - intros items -> Hitems.
    unfold execute_monday_query. rewrite Hkey. simpl.
    unfold try_except, bind; simpl. rewrite Hresp. simpl. rewrite Herr. simpl.
    rewrite (error_messages_of_objects items Hitems). simpl.
    rewrite py_join_strings. reflexivity.
  - intros ->. unfold execute_monday_query. rewrite Hkey. simpl.
    unfold try_except, bind; simpl. rewrite Hresp. simpl. rewrite Herr. reflexivity.
Qed.

(** Two errors, the second without a message. *)
Lemma execute_monday_query_errors_key_raises_witness :
  fst (execute_monday_query
         (env_of (fun c => ok MoreExamples.two_errors_answer)) GetParentItem None [])
  = inl (HTTPException 400
           "Monday.com API returned errors: Not authenticated, Unknown error").
Proof.
  pose proof (execute_monday_query_errors_key_raises
                (env_of (fun c => ok MoreExamples.two_errors_answer))
                GetParentItem None [] ""
                [("errors", JArr [JObj [("message", JStr "Not authenticated")];
                                  JObj [("code", JStr "Internal")]])]
                (JArr [JObj [("message", JStr "Not authenticated")];
                       JObj [("code", JStr "Internal")]])
                eq_refl eq_refl eq_refl)
    as [_ [Hobjects _]].
  exact (Hobjects _ eq_refl eq_refl).
Defined.

(** C10 as stated fails: the body has an ["errors"] key whose entry has a
    [null] message; joining the messages raises [TypeError], which is not
    the upstream error. *)
Lemma execute_monday_query_null_message :
  dict_get [("errors", JArr [JObj [("message", JNull)]])] "errors"
    = Some (JArr [JObj [("message", JNull)]])
  /\ execute_monday_query
       (env_of (fun c => ok MoreExamples.null_message_answer)) GetParentItem None []
     = (inl TypeError, [mkCall GetParentItem None])
  /\ (forall status_code detail,
         fst (execute_monday_query
                (env_of (fun c => ok MoreExamples.null_message_answer))
                GetParentItem None [])
         <> inl (HTTPException status_code detail)).
Proof.
  repeat split; try reflexivity. intros status_code detail. vm_compute. discriminate.
Qed.

(* ===================================================================== *)
(** ** Further properties of the API client *)
(* ===================================================================== *)

Import MoreExamples.

(** [execute_monday_query] returns exactly when the key is configured and
    the service answers 200 with a body that holds no ["errors"]; the
    value returned is that body. *)
Lemma execute_monday_query_returns_iff
      (env : Env) (q : Query) (v : option json) (log log' : list Call) (result : json) :
  execute_monday_query env q v log = (inr result, log') <->
  api_key_configured env = true
  /\ (exists text, requests_post env log (mkCall q v) = Response 200 text (inr result))
  /\ py_contains "errors" result = inr false
  /\ log' = (log ++ [mkCall q v])%list.
Proof.
  split.
  - unfold execute_monday_query.
    destruct (api_key_configured env); simpl; [|discriminate].
    unfold try_except, bind; simpl.
    destruct (requests_post env log (mkCall q v)) as [msg|sc text body]; simpl;
      [discriminate|].
    destruct (sc =? 200)%Z eqn:Esc; simpl; [|discriminate].
    apply Z.eqb_eq in Esc. subst sc.
    destruct body as [msg|j]; simpl; [discriminate|].
    destruct (py_contains "errors" j) as [e|[|]] eqn:Ec; simpl.
    + destruct e; discriminate.
    + destruct (py_get j "errors" (JArr [])) as [e|errs]; simpl; [destruct e; discriminate|].
      destruct (py_iter errs) as [e|items]; simpl; [destruct e; discriminate|].
      destruct (mapE _ items) as [e|msgs]; simpl; [destruct e; discriminate|].
      destruct (py_join ", " msgs) as [e|joined]; simpl; [destruct e; discriminate|].
      discriminate.
    + intros H. injection H as -> <-.
      split; [reflexivity|]. split; [exists text; reflexivity|]. split; [exact Ec|reflexivity].
  - intros [Hkey [[text Hresp] [Herr ->]]].
    exact (execute_monday_query_ok env q v log text result Hkey Hresp Herr).
Qed.

(** X1.  Without a configured key (unset or empty) the client raises the
    configuration error [HTTPException(500)] and sends nothing. *)
Theorem execute_monday_query_requires_key
        (env : Env) (q : Query) (v : option json) (log : list Call) :
  api_key_configured env = false ->
  execute_monday_query env q v log
  = (inl (HTTPException 500 "Monday.com API key not configured"), log).
Proof.
  apply execute_monday_query_no_key.
Qed.

Lemma execute_monday_query_requires_key_witness :
  execute_monday_query keyless_env GetParentItem None []
  = (inl (HTTPException 500 "Monday.com API key not configured"), []).
Proof.
  apply (execute_monday_query_requires_key keyless_env GetParentItem None []).
  reflexivity.
Defined.

(** X2.  A network-level failure of [requests.post] is turned into
    [HTTPException(500)] whose detail carries the failure's text; the one
    request was attempted. *)
Theorem execute_monday_query_transport_failure
        (env : Env) (q : Query) (v : option json) (log : list Call) (msg : string) :
  api_key_configured env = true ->
  requests_post env log (mkCall q v) = ConnectionFailed msg ->
  execute_monday_query env q v log
  = (inl (HTTPException 500 ("Request to Monday.com API failed: " ++ msg)),
     (log ++ [mkCall q v])%list).
Proof.
  intros Hkey Hresp. unfold execute_monday_query. rewrite Hkey. simpl.
  unfold try_except, bind; simpl. rewrite Hresp. reflexivity.
Qed.

Lemma execute_monday_query_transport_failure_witness :
  execute_monday_query (Examples.env_of unreachable_service) GetSubItem None []
  = (inl (HTTPException 500 "Request to Monday.com API failed: Connection refused"),
     [mkCall GetSubItem None]).
Proof.
  apply (execute_monday_query_transport_failure
           (Examples.env_of unreachable_service) GetSubItem None [] "Connection refused");
    reflexivity.
Defined.

(** X3.  A response with a status other than 200 raises an
    [HTTPException] with that very status, whose detail carries the
    response text; the body is not looked at. *)
Theorem execute_monday_query_propagates_status
        (env : Env) (q : Query) (v : option json) (log : list Call)
        (status_code : Z) (text : string) (body : string + json) :
  api_key_configured env = true ->
  requests_post env log (mkCall q v) = Response status_code text body ->
  status_code <> 200%Z ->
  execute_monday_query env q v log
  = (inl (HTTPException status_code ("Error from Monday.com API: " ++ text)),
     (log ++ [mkCall q v])%list).
Proof.
  apply execute_monday_query_non_200.
Qed.

Lemma execute_monday_query_propagates_status_witness :
  execute_monday_query
    (Examples.env_of
       (fun c => Response 429 "Too Many Requests"
                          (inr (JObj [("data", JObj [("items", JArr [])])]))))
    GetParentItem None []
  = (inl (HTTPException 429 "Error from Monday.com API: Too Many Requests"),
     [mkCall GetParentItem None]).
Proof.
  apply (execute_monday_query_propagates_status
           (Examples.env_of
              (fun c => Response 429 "Too Many Requests"
                                 (inr (JObj [("data", JObj [("items", JArr [])])]))))
           GetParentItem None [] 429 "Too Many Requests"
           (inr (JObj [("data", JObj [("items", JArr [])])]))).
  - reflexivity.
  - reflexivity.
  - discriminate.
Defined.

(** X4.  The client returns a value in exactly one situation: the key is
    configured, the service answers 200, and the decoded body holds no
    ["errors"]; the value is that body, unchanged. *)
Theorem execute_monday_query_success
        (env : Env) (q : Query) (v : option json) (log : list Call) (result : json) :
  fst (execute_monday_query env q v log) = inr result <->
  api_key_configured env = true
  /\ (exists text, requests_post env log (mkCall q v) = Response 200 text (inr result))
  /\ py_contains "errors" result = inr false.
Proof.
  split.
  - intros H.
    destruct (execute_monday_query env q v log) as [r log'] eqn:E. simpl in H. subst r.
    apply execute_monday_query_returns_iff in E.
    destruct E as [Hkey [Hresp [Herr _]]]. auto.
  - intros [Hkey [[text Hresp] Herr]].
    rewrite (execute_monday_query_ok env q v log text result Hkey Hresp Herr). reflexivity.
Qed.

(** X5.  One invocation sends one request, whatever its outcome: there is
    no retry.  (Without a key it sends none.) *)
Theorem execute_monday_query_single_request
        (env : Env) (q : Query) (v : option json) (log : list Call) :
  calls_of (execute_monday_query env q v) log
  = if api_key_configured env then [mkCall q v] else [].
Proof.
  apply calls_of_app. rewrite execute_monday_query_log.
  destruct (api_key_configured env); [reflexivity|]. symmetry. apply app_nil_r.
Qed.

(* ===================================================================== *)
(** ** Further properties of the parent -> subitems routine *)
(* ===================================================================== *)

Lemma try_except_log {A : Type} (m : M A) (f : exn -> A) (log : list Call) :
  snd (try_except m (fun e => ret (f e)) log) = snd (m log).
Proof.
  unfold try_except. destruct (m log) as [[e|x] log']; reflexivity.
Qed.

Section ParentUpdateMore.

Variable env : Env.

(** One round of the loop issues nothing, or the mutation of a subitem
    that carries its two identifiers. *)
Lemma update_subitem_log_any (date_value subitem : json) (log : list Call) :
  snd (update_subitem env date_value subitem log) = log
  \/ (has_ids subitem = true
      /\ snd (update_subitem env date_value subitem log)
         = (log ++ [subitem_mutation date_value subitem])%list).
Proof.
  assert (H : exists out,
             snd (update_subitem env date_value subitem log) = out
             /\ (out = log
                 \/ (has_ids subitem = true
                     /\ out = (log ++ [subitem_mutation date_value subitem])%list))).
  { destruct subitem as [| | | | |xs|kvs];
      try (eexists; split; [reflexivity|left; reflexivity]).
    unfold update_subitem, has_ids, subitem_mutation, subitem_id_of,
      subitem_board_id_of, field.
    unfold bind at 1. simpl.
    destruct (dict_get kvs "id") as [i|]; simpl;
      (unfold bind at 1; simpl);
      (destruct (dict_get kvs "name") as [n|]; simpl);
      (unfold bind at 1; simpl);
      (destruct (dict_get kvs "board") as [[| | | | |bx|b]|]; simpl;
       try (eexists; split; [reflexivity|left; reflexivity]));
      (unfold bind at 1; simpl);
      try (destruct (dict_get b "id") as [bi|]; simpl);
      try (eexists; split; [reflexivity|left; reflexivity]);
      try (destruct (py_truthy i); simpl;
           [|eexists; split; [reflexivity|left; reflexivity]]);
      try (destruct (py_truthy bi); simpl;
           [|eexists; split; [reflexivity|left; reflexivity]]);
      try (eexists; split; [reflexivity|left; reflexivity]);
      rewrite try_swallow, execute_monday_query_log;
      (destruct (api_key_configured env);
       eexists; (split; [reflexivity|]);
       [right; split; reflexivity|left; reflexivity]). }
  destruct H as [out [E H]]. rewrite E. exact H.
Qed.

Lemma update_subitems_log_any (date_value : json) (subitems : list json) :
  forall log,
  exists updated,
    forallb has_ids updated = true
    /\ snd (update_subitems env date_value subitems log)
       = (log ++ map (subitem_mutation date_value) updated)%list.
Proof.
  induction subitems as [|s rest IH]; intros log; simpl.
  - exists []. split; [reflexivity|]. symmetry. apply app_nil_r.
  - unfold bind.
    destruct (update_subitem_log_any date_value s log) as [Hlog|[Hids Hlog]];
      destruct (update_subitem env date_value s log) as [[e|[]] log1];
      simpl in Hlog; subst log1.
    + exists []. split; [reflexivity|]. symmetry. apply app_nil_r.
    + apply IH.
    + exists [s]. simpl. rewrite Hids. split; reflexivity.
    + destruct (IH (log ++ [subitem_mutation date_value s])%list) as [updated [Hall Hrest]].
      exists (s :: updated). simpl. rewrite Hids, Hall. split; [reflexivity|].
      rewrite Hrest, <- app_assoc. reflexivity.
Qed.

(** A subitem that is no dict, or whose board is no dict, makes its round
    raise before any call. *)
Lemma update_subitem_malformed (date_value subitem : json) (log : list Call) :
  subitem_shaped subitem = false ->
  update_subitem env date_value subitem log = (inl AttributeError, log).
Proof.
  intros Hs. destruct subitem as [| | | | |xs|kvs]; try reflexivity.
  unfold update_subitem. simpl in Hs.
  unfold bind at 1. simpl.
  destruct (dict_get kvs "id") as [i|]; simpl;
    (unfold bind at 1; simpl);
    (destruct (dict_get kvs "name") as [n|]; simpl);
    (unfold bind at 1; simpl);
    (destruct (dict_get kvs "board") as [[| | | | |bx|b]|]; try discriminate; reflexivity).
Qed.

(** The run of [process_date_automation] on a well-shaped answer, up to
    the loop. *)
Lemma process_date_automation_run_loop
      (webhook_data : json) (event : list (string * json)) (log : list Call)
      (text : string) (result date_value : json) (subitems : list json) :
  api_key_configured env = true ->
  py_get webhook_data "event" (JObj []) = inr (JObj event) ->
  py_truthy (event_item_id event) = true ->
  requests_post env log (mkCall (ItemsWithSubitems (event_item_id event)) None)
    = Response 200 text (inr result) ->
  parent_view result = Some (date_value, subitems) ->
  empty_or_null date_value = false ->
  snd (process_date_automation env webhook_data log)
  = snd (update_subitems env date_value subitems
           (log ++ [mkCall (ItemsWithSubitems (event_item_id event)) None])%list).
Proof.
  intros key Hev Hid Hresp Hview Hdate.
  apply orb_false_iff in Hdate. destruct Hdate as [Hv Hnull].
  apply negb_false_iff in Hv.
  unfold process_date_automation.
  unfold bind at 1. simpl. rewrite Hev.
  rewrite !py_get1_obj. unfold bind at 1 2 3. simpl.
  fold (event_item_id event). rewrite Hid. simpl.
  destruct result as [| | | | |xs|r]; try discriminate. simpl in Hview.
  destruct (dict_get r "errors") eqn:Eerr; try discriminate.
  destruct (dict_get r "data") as [[| | | | |dx|data]|] eqn:Edata; try discriminate.
  destruct (dict_get data "items") as [[| | | | |[|[| | | | |px|parent] others]|ix]|] eqn:Eitems;
    try discriminate.
  destruct (dict_get parent "column_values") as [[| | | | |[|[| | | | |cx|col] cols]|cvx]|] eqn:Ecv;
    try discriminate.
  destruct (dict_get parent "subitems") as [[| | | | |subs|sx]|] eqn:Esub; try discriminate.
  destruct (dict_get col "value") as [v|] eqn:Eval; try discriminate.
  injection Hview as -> ->.
  rewrite try_except_log.
  unfold bind at 1.
  rewrite (execute_monday_query_ok env _ _ _ text (JObj r) key Hresp)
    by (simpl; rewrite Eerr; reflexivity).
  assert (Hcol : py_truthy (JObj col) = true)
    by (destruct col; [discriminate Eval|reflexivity]).
  simpl in Hcol.
  unfold bind, py_get1; simpl. rewrite Edata; simpl. rewrite Eitems; simpl.
  destruct (dict_get parent "name"); simpl;
    rewrite Ecv; simpl; rewrite Hcol; simpl; unfold py_get; rewrite Eval; simpl;
    (destruct (dict_get col "text"); simpl);
    rewrite Hv, Hnull; simpl; rewrite Esub; simpl;
    (destruct subitems as [|s rest]; reflexivity).
Qed.

(** The loop stops at the first malformed subitem. *)
Lemma update_subitems_stop (date_value : json) (good : list json) (bad : json)
      (rest : list json) :
  api_key_configured env = true ->
  forallb subitem_shaped good = true ->
  subitem_shaped bad = false ->
  forall log,
    update_subitems env date_value (good ++ bad :: rest)%list log
    = (inl AttributeError,
       (log ++ map (subitem_mutation date_value) (filter has_ids good))%list).
Proof.
  intros key Hgood Hbad.
  induction good as [|s good IH]; intros log; simpl.
  - unfold bind. rewrite (update_subitem_malformed _ _ _ Hbad).
    rewrite app_nil_r. reflexivity.
  - simpl in Hgood. apply andb_true_iff in Hgood. destruct Hgood as [Hs Hgood].
    unfold bind. rewrite (update_subitem_spec env key _ _ _ Hs).
    rewrite (IH Hgood). destruct (has_ids s); simpl.
    + rewrite <- app_assoc. reflexivity.
    + reflexivity.
Qed.

End ParentUpdateMore.

(** X6.  An event that carries none of [pulseId], [pulse_id], [itemId]
    (or only falsy ones) makes [process_date_automation] return at once:
    no call is issued. *)
Theorem process_date_automation_requires_item_id
        (env : Env) (webhook_data : json) (event : list (string * json))
        (log : list Call) :
  py_get webhook_data "event" (JObj []) = inr (JObj event) ->
  py_truthy (event_item_id event) = false ->
  process_date_automation env webhook_data log = (inr tt, log).
Proof.
  intros Hev Hid. unfold process_date_automation.
  unfold bind at 1. simpl. rewrite Hev.
  rewrite !py_get1_obj. unfold bind at 1 2 3. simpl.
  fold (event_item_id event). rewrite Hid. reflexivity.
Qed.

Lemma process_date_automation_requires_item_id_witness :
  process_date_automation (Examples.env_of Examples.down_service) event_without_item []
  = (inr tt, []).
Proof.
  apply (process_date_automation_requires_item_id
           (Examples.env_of Examples.down_service) event_without_item
           [("type", JStr "update_column_value"); ("boardId", JNum 5)] []);
    reflexivity.
Defined.

(** X7.  Once the payload's event is a dict, [process_date_automation]
    never raises: a failure of the query, of the reading of its answer or
    of any mutation ends in a normal return. *)
Theorem process_date_automation_never_raises
        (env : Env) (webhook_data : json) (event : list (string * json))
        (log : list Call) :
  py_get webhook_data "event" (JObj []) = inr (JObj event) ->
  fst (process_date_automation env webhook_data log) = inr tt.
Proof.
  apply process_date_automation_returns.
Qed.

Lemma process_date_automation_never_raises_witness :
  fst (process_date_automation (Examples.env_of unreachable_service)
                               Examples.parent_event []) = inr tt.
Proof.
  apply (process_date_automation_never_raises
           (Examples.env_of unreachable_service) Examples.parent_event
           [("type", JStr "update_column_value"); ("pulseId", JNum 77);
            ("boardId", JNum 5)] []).
  reflexivity.
Defined.

(** X8.  Whatever the service answers, the calls of
    [process_date_automation] are none at all, or the query for the
    event's item followed by mutations that all write one and the same
    value into the column [date_mkn2am1b], each for a subitem carrying a
    non-empty id and board id. *)
Theorem process_date_automation_calls_shape
        (env : Env) (webhook_data : json) (event : list (string * json))
        (log : list Call) :
  py_get webhook_data "event" (JObj []) = inr (JObj event) ->
  exists calls,
    snd (process_date_automation env webhook_data log) = (log ++ calls)%list
    /\ parent_update_calls event calls.
Proof.
  intros Hev. unfold process_date_automation.
  unfold bind at 1. simpl. rewrite Hev.
  rewrite !py_get1_obj. unfold bind at 1 2 3. simpl.
  fold (event_item_id event).
  set (q := mkCall (ItemsWithSubitems (event_item_id event)) None).
  assert (Hnone : exists calls, log = (log ++ calls)%list /\ parent_update_calls event calls).
  { exists []. split; [symmetry; apply app_nil_r|left; reflexivity]. }
  assert (Hquery : exists calls,
             (log ++ [q])%list = (log ++ calls)%list /\ parent_update_calls event calls).
  { exists [q]. split; [reflexivity|].
    right. exists JNull, []. split; reflexivity. }
  destruct (py_truthy (event_item_id event)); simpl; [|exact Hnone].
  rewrite try_except_log. unfold bind at 1.
  destruct (execute_monday_query env (ItemsWithSubitems (event_item_id event)) None log)
    as [[e|result] log'] eqn:Ex.
  - pose proof (execute_monday_query_log env (ItemsWithSubitems (event_item_id event))
                                         None log) as Hl.
    rewrite Ex in Hl. simpl in Hl. simpl. subst log'.
    destruct (api_key_configured env); [exact Hquery|exact Hnone].
  - apply execute_monday_query_returns_iff in Ex. destruct Ex as [_ [_ [_ ->]]].
    fold q. unfold bind, py_get1. simpl.
    destruct (py_get result "data" (JObj [])) as [e|data]; simpl; [exact Hquery|].
    destruct (py_get data "items" (JArr [])) as [e|items]; simpl; [exact Hquery|].
    destruct (py_truthy items); simpl; [|exact Hquery].
    destruct (py_index0 items) as [e|parent]; simpl; [exact Hquery|].
    destruct (py_get parent "name" (JStr "Unknown")) as [e|name]; simpl; [exact Hquery|].
    destruct (py_get parent "column_values" JNull) as [e|cv]; simpl; [exact Hquery|].
    destruct (py_truthy cv); simpl; [|exact Hquery].
    destruct (py_get parent "column_values" (JArr [])) as [e|cvs]; simpl; [exact Hquery|].
    destruct (py_index0 cvs) as [e|date_column]; simpl; [exact Hquery|].
    destruct (py_truthy date_column); simpl; [|exact Hquery].
    destruct (py_get date_column "value" JNull) as [e|date_value]; simpl; [exact Hquery|].
    destruct (py_get date_column "text" (JStr "")) as [e|date_text]; simpl; [exact Hquery|].
    destruct (negb (py_truthy date_value) || py_eq_str date_value "null"); simpl;
      [exact Hquery|].
    destruct (py_get parent "subitems" (JArr [])) as [e|subitems]; simpl; [exact Hquery|].
    destruct (py_truthy subitems); simpl; [|exact Hquery].
    destruct (py_iter subitems) as [e|each]; simpl; [exact Hquery|].
    destruct (update_subitems_log_any env date_value each (log ++ [q])%list)
      as [updated [Hall Hlog]].
    rewrite Hlog. exists (q :: map (subitem_mutation date_value) updated).
    split; [rewrite <- app_assoc; reflexivity|].
    right. exists date_value, updated. split; [exact Hall|reflexivity].
Qed.

Lemma process_date_automation_calls_shape_witness :
  exists calls,
    snd (process_date_automation
           (Examples.env_of
              (Examples.parent_service
                 (Examples.parent_with Examples.may_first
                                       [Examples.subitem_a; Examples.subitem_b])))
           Examples.parent_event []) = ([] ++ calls)%list
    /\ parent_update_calls
         [("type", JStr "update_column_value"); ("pulseId", JNum 77); ("boardId", JNum 5)]
         calls.
Proof.
  apply (process_date_automation_calls_shape
           (Examples.env_of
              (Examples.parent_service
                 (Examples.parent_with Examples.may_first
                                       [Examples.subitem_a; Examples.subitem_b])))
           Examples.parent_event
           [("type", JStr "update_column_value"); ("pulseId", JNum 77); ("boardId", JNum 5)]
           []).
  reflexivity.
Defined.

(** X9.  A subitem that is no dict, or whose board is present but no dict
    (e.g. [null]), ends the loop: the subitems before it are updated as
    usual, those after it are not touched, and the routine still returns
    normally. *)
Theorem process_date_automation_stops_at_malformed_subitem
        (env : Env) (webhook_data : json) (event : list (string * json))
        (log : list Call) (text : string) (result date_value : json)
        (good : list json) (bad : json) (rest : list json) :
  api_key_configured env = true ->
  py_get webhook_data "event" (JObj []) = inr (JObj event) ->
  py_truthy (event_item_id event) = true ->
  requests_post env log (mkCall (ItemsWithSubitems (event_item_id event)) None)
    = Response 200 text (inr result) ->
  parent_view result = Some (date_value, (good ++ bad :: rest)%list) ->
  empty_or_null date_value = false ->
  forallb subitem_shaped good = true ->
  subitem_shaped bad = false ->
  fst (process_date_automation env webhook_data log) = inr tt
  /\ mutation_calls (calls_of (process_date_automation env webhook_data) log)
     = map (subitem_mutation date_value) (filter has_ids good).
Proof.
  intros Hkey Hev Hid Hresp Hview Hdate Hgood Hbad.
  split; [exact (process_date_automation_returns env webhook_data event log Hev)|].
  pose proof (process_date_automation_run_loop env webhook_data event log text result
                date_value _ Hkey Hev Hid Hresp Hview Hdate) as Hrun.
  rewrite (update_subitems_stop env date_value good bad rest Hkey Hgood Hbad) in Hrun.
  simpl in Hrun. rewrite <- app_assoc in Hrun.
  rewrite (calls_of_app _ log _ Hrun).
  change (mutation_calls
            ([mkCall (ItemsWithSubitems (event_item_id event)) None]
               ++ map (subitem_mutation date_value) (filter has_ids good))%list
          = map (subitem_mutation date_value) (filter has_ids good)).
  rewrite mutation_calls_app, mutation_calls_subitems. reflexivity.
Qed.

(** Three subitems, the second with a [null] board: only the first is
    updated. *)
Lemma process_date_automation_stops_at_malformed_subitem_witness :
  mutation_calls
    (calls_of (process_date_automation
                 (Examples.env_of
                    (Examples.parent_service
                       (Examples.parent_with
                          Examples.may_first
                          [Examples.subitem_a; subitem_null_board; Examples.subitem_c])))
                 Examples.parent_event) [])
  = [subitem_mutation Examples.may_first Examples.subitem_a].
Proof.
  pose proof (process_date_automation_stops_at_malformed_subitem
                (Examples.env_of
                   (Examples.parent_service
                      (Examples.parent_with
                         Examples.may_first
                         [Examples.subitem_a; subitem_null_board; Examples.subitem_c])))
                Examples.parent_event
                [("type", JStr "update_column_value"); ("pulseId", JNum 77);
                 ("boardId", JNum 5)]
                [] ""
                (Examples.parent_with
                   Examples.may_first
                   [Examples.subitem_a; subitem_null_board; Examples.subitem_c])
                Examples.may_first
                [Examples.subitem_a] subitem_null_board [Examples.subitem_c]
                eq_refl eq_refl eq_refl eq_refl eq_refl eq_refl eq_refl eq_refl)
    as [_ Hcalls].
  exact Hcalls.
Defined.

(* ===================================================================== *)
(** ** Further properties of the subitem -> parent routine *)
(* ===================================================================== *)

(** What [next] finds is a dict, or [None]. *)
Lemma next_with_dict (key expected : string) (cols : list json) (col : json) :
  next_with key expected cols = inr col ->
  col = JNull \/ is_dict col = true.
Proof.
  induction cols as [|c cols IH]; simpl.
  - intros H. injection H as <-. left. reflexivity.
  - destruct c as [| | | | |xs|kvs]; simpl; try discriminate.
    destruct (dict_get kvs key) as [v|]; simpl.
    + destruct (py_eq_str v expected).
      * intros H. injection H as <-. right. reflexivity.
      * exact IH.
    + exact IH.
Qed.

(** On a list of dicts, [next] is the first match. *)
Lemma next_with_find (key expected : string) (cols : list json) :
  forallb is_dict cols = true ->
  next_with key expected cols = inr (first_or_none (column_has key expected) cols).
Proof.
  unfold first_or_none.
  induction cols as [|c cols IH]; simpl; intros Hd; [reflexivity|].
  apply andb_true_iff in Hd. destruct Hd as [Hc Hd].
  destruct c as [| | | | |xs|kvs]; try discriminate.
  unfold column_has at 1, member, field. simpl.
  destruct (dict_get kvs key) as [v|]; simpl.
  - destruct (py_eq_str v expected); [reflexivity|exact (IH Hd)].
  - exact (IH Hd).
Qed.

(** A first match is truthy: it is a dict that holds the key. *)
Lemma first_or_none_truthy (key expected : string) (cols : list json) :
  py_truthy (first_or_none (column_has key expected) cols)
  = existsb (column_has key expected) cols.
Proof.
  unfold first_or_none.
  induction cols as [|c cols IH]; simpl; [reflexivity|].
  destruct (column_has key expected c) eqn:Hc; simpl; [|exact IH].
  destruct c as [| | | | |xs|kvs]; try discriminate.
  unfold column_has, member, field in Hc.
  destruct kvs; [discriminate|reflexivity].
Qed.

Lemma find_date_column_dict (item : json) (column_id : string) (col : json) :
  find_date_column item column_id = inr col ->
  col = JNull \/ is_dict col = true.
Proof.
  unfold find_date_column, bindE.
  destruct (py_get item "column_values" (JArr [])) as [e|cols]; [discriminate|].
  destruct (py_iter cols) as [e|each]; [discriminate|].
  destruct (next_with "id" column_id each) as [e|by_id] eqn:Hid; [discriminate|].
  destruct (py_truthy by_id); simpl.
  - intros H. injection H as <-. exact (next_with_dict _ _ _ _ Hid).
  - apply next_with_dict.
Qed.

Lemma located_date_column_dict (result : json) (column_id : string) (col : json) :
  located_date_column result column_id = Some col ->
  exists kvs, col = JObj kvs.
Proof.
  unfold located_date_column, bindE.
  destruct (py_get result "data" (JObj [])) as [e|data]; [discriminate|].
  destruct (py_get data "items" (JArr [])) as [e|items]; [discriminate|].
  destruct (negb (py_truthy items)); [discriminate|].
  destruct (py_index0 items) as [e|item]; [discriminate|].
  destruct (py_get item "name" (JStr "Unknown")) as [e|name]; [discriminate|].
  destruct (find_date_column item column_id) as [e|c] eqn:Hf; [discriminate|].
  destruct (py_truthy c) eqn:Ht; [|discriminate].
  intros H. injection H as <-.
  destruct (find_date_column_dict _ _ _ Hf) as [->|Hd]; [discriminate|].
  destruct c; try discriminate. eauto.
Qed.

(** X10.  The column lookup on an item whose columns are dicts: the first
    column whose id is the wanted one, even when a column of type
    ["date"] comes before it; failing that, the first column of type
    ["date"]; failing that, [None]. *)
Theorem find_date_column_order
        (item : json) (column_id : string) (cols : list json) :
  py_get item "column_values" (JArr []) = inr (JArr cols) ->
  forallb is_dict cols = true ->
  find_date_column item column_id
  = inr (if existsb (column_has "id" column_id) cols
         then first_or_none (column_has "id" column_id) cols
         else first_or_none (column_has "type" "date") cols).
Proof.
  intros Hcols Hd. unfold find_date_column, bindE. rewrite Hcols. simpl.
  rewrite (next_with_find "id" column_id cols Hd).
  rewrite first_or_none_truthy.
  destruct (existsb (column_has "id" column_id) cols); simpl; [reflexivity|].
  apply next_with_find. exact Hd.
Qed.

(** The column [date7] is found behind an earlier column of type date. *)
Lemma find_date_column_order_witness :
  find_date_column (JObj [("name", JStr "Item"); ("column_values", JArr two_date_columns)])
                   "date7"
  = inr (JObj [("id", JStr "date7"); ("type", JStr "date");
               ("value", Examples.may_first)]).
Proof.
  apply (find_date_column_order
           (JObj [("name", JStr "Item"); ("column_values", JArr two_date_columns)])
           "date7" two_date_columns);
    reflexivity.
Defined.

Section SubitemSyncMore.

Variable env : Env.
Hypothesis key : api_key_configured env = true.

(** The run of [sync_subitem_with_parent] once both lookups are answered:
    it returns normally, having issued the mutation when both date
    columns are located and nothing more otherwise. *)
Lemma sync_subitem_with_parent_after_lookups
      (webhook_data : json) (event : list (string * json)) (log : list Call)
      (parent_text subitem_text : string) (parent_result subitem_result : json) :
  py_get webhook_data "event" (JObj []) = inr (JObj event) ->
  py_all (required_ids event) = true ->
  requests_post env log (parent_lookup event)
    = Response 200 parent_text (inr parent_result) ->
  py_contains "errors" parent_result = inr false ->
  requests_post env (log ++ [parent_lookup event])%list (subitem_lookup event)
    = Response 200 subitem_text (inr subitem_result) ->
  py_contains "errors" subitem_result = inr false ->
  sync_subitem_with_parent env webhook_data log =
  (inr tt,
   (log ++ parent_lookup event :: subitem_lookup event
        :: subitem_sync_mutation env event parent_result subitem_result)%list).
Proof.
  intros Hev Hall Hp Hpe Hs Hse.
  destruct (located_date_column parent_result "date7") as [pcol|] eqn:Hpc;
    [destruct (located_date_column subitem_result "date_mkn2am1b") as [scol|] eqn:Hsc|].
  - destruct (located_date_column_dict _ _ _ Hpc) as [parent_col ->].
    destruct (located_date_column_dict _ _ _ Hsc) as [subitem_col ->].
    unfold subitem_sync_mutation. rewrite Hpc, Hsc.
    exact (sync_subitem_with_parent_run env key webhook_data event log
             parent_text subitem_text parent_result subitem_result parent_col subitem_col
             Hev Hall Hp Hpe Hs Hse Hpc Hsc).
  - unfold subitem_sync_mutation. rewrite Hpc, Hsc.
    unfold sync_subitem_with_parent.
    unfold bind at 1. simpl. rewrite Hev.
    rewrite !py_get1_obj. unfold bind at 1 2 3 4 5. simpl.
    unfold required_ids, event_subitem_id in Hall. rewrite Hall. simpl.
    unfold bind at 1. unfold parent_lookup in *.
    rewrite (execute_monday_query_ok env _ _ _ parent_text parent_result key Hp Hpe).
    unfold bind at 1. unfold subitem_lookup, event_subitem_id in *.
    rewrite (execute_monday_query_ok env _ _ _ subitem_text subitem_result key Hs Hse).
    unfold located_date_column in Hpc, Hsc.
    unfold try_except, bind, bindE in *. simpl in *.
    destruct (py_get parent_result "data" (JObj [])) as [e|pdata]; [discriminate|].
    destruct (py_get pdata "items" (JArr [])) as [e|pitems]; [discriminate|].
    destruct (py_truthy pitems); simpl in *; [|discriminate].
    destruct (py_index0 pitems) as [e|pitem]; [discriminate|].
    destruct (py_get pitem "name" (JStr "Unknown")) as [e|pname]; [discriminate|].
    destruct (find_date_column pitem "date7") as [e|pc]; [discriminate|].
    destruct (py_truthy pc); simpl in *; [|discriminate].
    injection Hpc as ->.
    destruct (py_get1 pcol "id") as [e|pid];
      [simpl; rewrite <- !app_assoc; reflexivity|].
    destruct (py_get subitem_result "data" (JObj [])) as [e|sdata];
      [simpl; rewrite <- !app_assoc; reflexivity|].
    destruct (py_get sdata "items" (JArr [])) as [e|sitems];
      [simpl; rewrite <- !app_assoc; reflexivity|].
    destruct (py_truthy sitems); simpl in *;
      [|rewrite <- !app_assoc; reflexivity].
    destruct (py_index0 sitems) as [e|sitem];
      [simpl; rewrite <- !app_assoc; reflexivity|].
    destruct (py_get sitem "name" (JStr "Unknown")) as [e|sname];
      [simpl; rewrite <- !app_assoc; reflexivity|].
    destruct (find_date_column sitem "date_mkn2am1b") as [e|sc];
      [simpl; rewrite <- !app_assoc; reflexivity|].
    destruct (py_truthy sc); simpl in *; [discriminate|].
    rewrite <- !app_assoc; reflexivity.
  - unfold subitem_sync_mutation. rewrite Hpc.
    unfold sync_subitem_with_parent.
    unfold bind at 1. simpl. rewrite Hev.
    rewrite !py_get1_obj. unfold bind at 1 2 3 4 5. simpl.
    unfold required_ids, event_subitem_id in Hall. rewrite Hall. simpl.
    unfold bind at 1. unfold parent_lookup in *.
    rewrite (execute_monday_query_ok env _ _ _ parent_text parent_result key Hp Hpe).
    unfold bind at 1. unfold subitem_lookup, event_subitem_id in *.
    rewrite (execute_monday_query_ok env _ _ _ subitem_text subitem_result key Hs Hse).
    unfold located_date_column in Hpc.
    unfold try_except, bind, bindE in *. simpl in *.
    destruct (py_get parent_result "data" (JObj [])) as [e|pdata];
      [simpl; rewrite <- !app_assoc; reflexivity|].
    destruct (py_get pdata "items" (JArr [])) as [e|pitems];
      [simpl; rewrite <- !app_assoc; reflexivity|].
    destruct (py_truthy pitems); simpl in *;
      [|rewrite <- !app_assoc; reflexivity].
    destruct (py_index0 pitems) as [e|pitem];
      [simpl; rewrite <- !app_assoc; reflexivity|].
    destruct (py_get pitem "name" (JStr "Unknown")) as [e|pname];
      [simpl; rewrite <- !app_assoc; reflexivity|].
    destruct (find_date_column pitem "date7") as [e|pc];
      [simpl; rewrite <- !app_assoc; reflexivity|].
    destruct (py_truthy pc); simpl in *; [discriminate|].
    rewrite <- !app_assoc; reflexivity.
Qed.

End SubitemSyncMore.

Section SubitemSyncFlow.

Variable env : Env.

(** An exception of the parent lookup leaves the routine. *)
Lemma sync_subitem_with_parent_parent_lookup_raises
      (webhook_data : json) (event : list (string * json)) (log log1 : list Call)
      (e : exn) :
  py_get webhook_data "event" (JObj []) = inr (JObj event) ->
  py_all (required_ids event) = true ->
  execute_monday_query env GetParentItem (call_variables (parent_lookup event)) log
    = (inl e, log1) ->
  sync_subitem_with_parent env webhook_data log = (inl e, log1).
Proof.
  intros Hev Hall Hp. unfold sync_subitem_with_parent.
  unfold bind at 1. simpl. rewrite Hev.
  rewrite !py_get1_obj. unfold bind at 1 2 3 4 5. simpl.
  unfold required_ids, event_subitem_id in Hall. rewrite Hall. simpl.
  unfold bind at 1. simpl in Hp. rewrite Hp. reflexivity.
Qed.

(** So does an exception of the subitem lookup. *)
Lemma sync_subitem_with_parent_subitem_lookup_raises
      (webhook_data : json) (event : list (string * json)) (log log1 log2 : list Call)
      (parent_result : json) (e : exn) :
  py_get webhook_data "event" (JObj []) = inr (JObj event) ->
  py_all (required_ids event) = true ->
  execute_monday_query env GetParentItem (call_variables (parent_lookup event)) log
    = (inr parent_result, log1) ->
  execute_monday_query env GetSubItem (call_variables (subitem_lookup event)) log1
    = (inl e, log2) ->
  sync_subitem_with_parent env webhook_data log = (inl e, log2).
Proof.
  intros Hev Hall Hp Hs. unfold sync_subitem_with_parent.
  unfold bind at 1. simpl. rewrite Hev.
  rewrite !py_get1_obj. unfold bind at 1 2 3 4 5. simpl.
  unfold required_ids, event_subitem_id in Hall. rewrite Hall. simpl.
  unfold bind at 1. simpl in Hp. rewrite Hp.
  unfold bind at 1. simpl in Hs. unfold event_subitem_id in Hs. rewrite Hs. reflexivity.
Qed.

End SubitemSyncFlow.

(** X11.  When both lookups are answered but the parent's or the
    subitem's date column cannot be located (no item, no column with the
    known id and none of type ["date"], or an answer of another shape),
    the routine issues the two lookups and no mutation, and returns
    normally. *)
Theorem sync_subitem_with_parent_without_column
        (env : Env) (webhook_data : json) (event : list (string * json))
        (log : list Call) (parent_text subitem_text : string)
        (parent_result subitem_result : json) :
  api_key_configured env = true ->
  py_get webhook_data "event" (JObj []) = inr (JObj event) ->
  py_all (required_ids event) = true ->
  requests_post env log (parent_lookup event)
    = Response 200 parent_text (inr parent_result) ->
  py_contains "errors" parent_result = inr false ->
  requests_post env (log ++ [parent_lookup event])%list (subitem_lookup event)
    = Response 200 subitem_text (inr subitem_result) ->
  py_contains "errors" subitem_result = inr false ->
  located_date_column parent_result "date7" = None
  \/ located_date_column subitem_result "date_mkn2am1b" = None ->
  fst (sync_subitem_with_parent env webhook_data log) = inr tt
  /\ calls_of (sync_subitem_with_parent env webhook_data) log
     = [parent_lookup event; subitem_lookup event].
Proof.
  intros Hkey Hev Hall Hp Hpe Hs Hse Hnone.
  pose proof (sync_subitem_with_parent_after_lookups env Hkey webhook_data event log
                parent_text subitem_text parent_result subitem_result
                Hev Hall Hp Hpe Hs Hse) as Hrun.
  assert (Hmut : subitem_sync_mutation env event parent_result subitem_result = []).
  { unfold subitem_sync_mutation.
    destruct Hnone as [-> | ->]; [reflexivity|].
    destruct (located_date_column parent_result "date7"); reflexivity. }
  rewrite Hmut in Hrun.
  split; [rewrite Hrun; reflexivity|].
  apply calls_of_app. rewrite Hrun. reflexivity.
Qed.

(** The parent item has no date column at all. *)
Lemma sync_subitem_with_parent_without_column_witness :
  fst (sync_subitem_with_parent (Examples.env_of dateless_parent_service)
                                Examples.subitem_event []) = inr tt
  /\ calls_of (sync_subitem_with_parent (Examples.env_of dateless_parent_service)
                                        Examples.subitem_event) []
     = [parent_lookup Examples.subitem_event_fields;
        subitem_lookup Examples.subitem_event_fields].
Proof.
  apply (sync_subitem_with_parent_without_column
           (Examples.env_of dateless_parent_service) Examples.subitem_event
           Examples.subitem_event_fields [] "" ""
           item_without_date (Examples.item_with_column "date_mkn2am1b" JNull));
    try reflexivity.
  left. reflexivity.
Defined.

(** X12.  A lookup answered with a status other than 200 ends the
    routine with the client's [HTTPException]: after a failed parent
    lookup nothing else is sent, after a failed subitem lookup no
    mutation is sent. *)
Theorem sync_subitem_with_parent_lookup_failure
        (env : Env) (webhook_data : json) (event : list (string * json))
        (log : list Call) :
  api_key_configured env = true ->
  py_get webhook_data "event" (JObj []) = inr (JObj event) ->
  py_all (required_ids event) = true ->
  (forall status_code text body,
      requests_post env log (parent_lookup event) = Response status_code text body ->
      status_code <> 200%Z ->
      sync_subitem_with_parent env webhook_data log
      = (inl (HTTPException status_code ("Error from Monday.com API: " ++ text)),
         (log ++ [parent_lookup event])%list))
  /\ (forall parent_text parent_result status_code text body,
         requests_post env log (parent_lookup event)
           = Response 200 parent_text (inr parent_result) ->
         py_contains "errors" parent_result = inr false ->
         requests_post env (log ++ [parent_lookup event])%list (subitem_lookup event)
           = Response status_code text body ->
         status_code <> 200%Z ->
         sync_subitem_with_parent env webhook_data log
         = (inl (HTTPException status_code ("Error from Monday.com API: " ++ text)),
            (log ++ [parent_lookup event; subitem_lookup event])%list)).
Proof.
  intros Hkey Hev Hall. split.
  - intros sc text body Hp Hsc.
    apply (sync_subitem_with_parent_parent_lookup_raises env webhook_data event log _ _
             Hev Hall).
    exact (execute_monday_query_non_200 env _ _ log sc text body Hkey Hp Hsc).
  - intros ptext pr sc text body Hp Hpe Hs Hsc.
    rewrite (sync_subitem_with_parent_subitem_lookup_raises
               env webhook_data event log (log ++ [parent_lookup event])%list
               ((log ++ [parent_lookup event]) ++ [subitem_lookup event])%list
               pr (HTTPException sc ("Error from Monday.com API: " ++ text)) Hev Hall).
    + rewrite <- app_assoc. reflexivity.
    + exact (execute_monday_query_ok env _ _ log ptext pr Hkey Hp Hpe).
    + exact (execute_monday_query_non_200 env _ _ _ sc text body Hkey Hs Hsc).
Qed.

(** The parent lookup is answered, the subitem lookup gets a 500. *)
Lemma sync_subitem_with_parent_lookup_failure_witness :
  sync_subitem_with_parent (Examples.env_of half_down_service) Examples.subitem_event []
  = (inl (HTTPException 500 "Error from Monday.com API: Internal Server Error"),
     [parent_lookup Examples.subitem_event_fields;
      subitem_lookup Examples.subitem_event_fields]).
Proof.
  pose proof (sync_subitem_with_parent_lookup_failure
                (Examples.env_of half_down_service) Examples.subitem_event
                Examples.subitem_event_fields [] eq_refl eq_refl eq_refl)
    as [_ Hsub].
  apply (Hsub "" (Examples.item_with_column "date7" Examples.may_first)
              500%Z "Internal Server Error" (inl "no JSON")).
  - reflexivity.
  - reflexivity.
  - reflexivity.
  - discriminate.
Defined.

(** X13.  Once both lookups are answered, the routine returns normally
    whatever follows: an answer it cannot read, a missing column, or a
    mutation the service rejects. *)
Theorem sync_subitem_with_parent_returns_after_lookups
        (env : Env) (webhook_data : json) (event : list (string * json))
        (log : list Call) (parent_text subitem_text : string)
        (parent_result subitem_result : json) :
  api_key_configured env = true ->
  py_get webhook_data "event" (JObj []) = inr (JObj event) ->
  py_all (required_ids event) = true ->
  requests_post env log (parent_lookup event)
    = Response 200 parent_text (inr parent_result) ->
  py_contains "errors" parent_result = inr false ->
  requests_post env (log ++ [parent_lookup event])%list (subitem_lookup event)
    = Response 200 subitem_text (inr subitem_result) ->
  py_contains "errors" subitem_result = inr false ->
  fst (sync_subitem_with_parent env webhook_data log) = inr tt.
Proof.
  intros Hkey Hev Hall Hp Hpe Hs Hse.
  rewrite (sync_subitem_with_parent_after_lookups env Hkey webhook_data event log
             parent_text subitem_text parent_result subitem_result
             Hev Hall Hp Hpe Hs Hse).
  reflexivity.
Qed.

(** The service rejects the mutation with a 500. *)
Lemma sync_subitem_with_parent_returns_after_lookups_witness :
  fst (sync_subitem_with_parent (Examples.env_of rejecting_service)
                                Examples.subitem_event []) = inr tt.
Proof.
  apply (sync_subitem_with_parent_returns_after_lookups
           (Examples.env_of rejecting_service) Examples.subitem_event
           Examples.subitem_event_fields [] "" ""
           (Examples.item_with_column "date7" Examples.may_first)
           (Examples.item_with_column "date_mkn2am1b" JNull));
    reflexivity.
Defined.

(** X14.  Whatever the service answers, the calls of
    [sync_subitem_with_parent] are a beginning of: the parent lookup, the
    subitem lookup, one mutation on the event's own subitem id and board
    id.  It never issues a second mutation, nor a mutation before both
    lookups. *)
Theorem sync_subitem_with_parent_calls_shape
        (env : Env) (webhook_data : json) (event : list (string * json))
        (log : list Call) :
  py_get webhook_data "event" (JObj []) = inr (JObj event) ->
  exists calls,
    snd (sync_subitem_with_parent env webhook_data log) = (log ++ calls)%list
    /\ subitem_sync_calls event calls.
Proof.
  intros Hev.
  destruct (py_all (required_ids event)) eqn:Hall.
  2:{ rewrite (sync_subitem_with_parent_missing_ids env webhook_data event log Hev Hall).
      exists []. split; [symmetry; apply app_nil_r|left; reflexivity]. }
  destruct (execute_monday_query env GetParentItem (call_variables (parent_lookup event)) log)
    as [[e|parent_result] log1] eqn:Ep.
  - rewrite (sync_subitem_with_parent_parent_lookup_raises env _ _ _ _ _ Hev Hall Ep).
    pose proof (execute_monday_query_log env GetParentItem
                  (call_variables (parent_lookup event)) log) as Hl.
    rewrite Ep in Hl. simpl in Hl. simpl. subst log1.
    destruct (api_key_configured env).
    + exists [parent_lookup event]. split; [reflexivity|right; left; reflexivity].
    + exists []. split; [symmetry; apply app_nil_r|left; reflexivity].
  - pose proof Ep as Ep'.
    apply execute_monday_query_returns_iff in Ep'.
    destruct Ep' as [Hkey [[ptext Hp] [Hpe ->]]].
    destruct (execute_monday_query env GetSubItem (call_variables (subitem_lookup event))
                                   (log ++ [parent_lookup event])%list)
      as [[e|subitem_result] log2] eqn:Es.
    + rewrite (sync_subitem_with_parent_subitem_lookup_raises env _ _ _ _ _ _ _
                 Hev Hall Ep Es).
      pose proof (execute_monday_query_log env GetSubItem
                    (call_variables (subitem_lookup event))
                    (log ++ [parent_lookup event])%list) as Hl.
      rewrite Es, Hkey in Hl. simpl in Hl. simpl. subst log2.
      exists [parent_lookup event; subitem_lookup event].
      split; [rewrite <- app_assoc; reflexivity|right; right; left; reflexivity].
    + apply execute_monday_query_returns_iff in Es.
      destruct Es as [_ [[stext Hs] [Hse _]]].
      rewrite (sync_subitem_with_parent_after_lookups env Hkey webhook_data event log
                 ptext stext parent_result subitem_result Hev Hall Hp Hpe Hs Hse).
      simpl. eexists. split; [reflexivity|].
      unfold subitem_sync_mutation.
      destruct (located_date_column parent_result "date7");
        [destruct (located_date_column subitem_result "date_mkn2am1b")|].
      * right; right; right. eexists. eexists. reflexivity.
      * right; right; left. reflexivity.
      * right; right; left. reflexivity.
Qed.

Lemma sync_subitem_with_parent_calls_shape_witness :
  exists calls,
    snd (sync_subitem_with_parent (Examples.env_of rejecting_service)
                                  Examples.subitem_event []) = ([] ++ calls)%list
    /\ subitem_sync_calls Examples.subitem_event_fields calls.
Proof.
  apply (sync_subitem_with_parent_calls_shape
           (Examples.env_of rejecting_service) Examples.subitem_event
           Examples.subitem_event_fields []).
  reflexivity.
Defined.

(* ===================================================================== *)
(** ** Further properties of the webhook handler and the test endpoint *)
(* ===================================================================== *)

Section HandlerMore.

Variable env : Env.

(** The handler up to its dispatch, for a payload that is a dict without
    ["challenge"] whose event is a dict. *)
Lemma monday_webhook_dispatch
      (request : Request) (body event : list (string * json)) (log : list Call) :
  parsed_body request = Some (JObj body) ->
  dict_get body "challenge" = None ->
  py_get (JObj body) "event" (JObj []) = inr (JObj event) ->
  monday_webhook env request log =
  try_except
    (if handled_type (field event "type") then
       done <- (if py_truthy (field event "parentItemId")
                then sync_subitem_with_parent env (JObj body)
                else process_date_automation env (JObj body)) ;;
       ret (success_response)
     else ret (success_response))
    (fun e => ret (error_response env e)) log.
Proof.
  intros Hp Hc He.
  unfold monday_webhook, try_except.
  unfold bind at 1. rewrite (parse_body_parsed _ _ _ Hp). cbv beta iota.
  unfold bind at 1. unfold liftE at 1. rewrite He. cbv beta iota.
  unfold bind at 1. unfold liftE at 1. rewrite py_get1_obj. cbv beta iota.
  unfold bind at 1. unfold liftE at 1. simpl py_contains. rewrite Hc. cbv beta iota.
  fold (handled_type (field event "type")).
  destruct (handled_type (field event "type")); [|reflexivity].
  unfold bind at 1. unfold liftE at 1. cbv beta iota.
  unfold bind at 1. unfold liftE at 1. rewrite py_get1_obj. cbv beta iota.
  reflexivity.
Qed.

(** Without a key neither routine sends anything. *)
Lemma process_date_automation_no_key (webhook_data : json) (log : list Call) :
  api_key_configured env = false ->
  snd (process_date_automation env webhook_data log) = log.
Proof.
  intros Hkey. unfold process_date_automation.
  unfold bind at 1; simpl.
  destruct (py_get webhook_data "event" (JObj [])) as [e|event]; [reflexivity|].
  unfold bind at 1; simpl.
  destruct (py_get1 event "pulseId") as [e|pulseId]; [reflexivity|].
  unfold bind at 1; simpl.
  destruct (py_get1 event "pulse_id") as [e|pulse_id]; [reflexivity|].
  unfold bind at 1; simpl.
  destruct (py_get1 event "itemId") as [e|itemId]; [reflexivity|].
  destruct (py_truthy (py_or pulseId (py_or pulse_id itemId))); simpl; [|reflexivity].
  rewrite try_except_log. unfold bind at 1.
  rewrite (execute_monday_query_no_key env _ _ _ Hkey). reflexivity.
Qed.

Lemma sync_subitem_with_parent_no_key (webhook_data : json) (log : list Call) :
  api_key_configured env = false ->
  snd (sync_subitem_with_parent env webhook_data log) = log.
Proof.
  intros Hkey. unfold sync_subitem_with_parent.
  unfold bind at 1; simpl.
  destruct (py_get webhook_data "event" (JObj [])) as [e|event]; [reflexivity|].
  unfold bind at 1; simpl.
  destruct (py_get1 event "itemId") as [e|itemId]; [reflexivity|].
  unfold bind at 1; simpl.
  destruct (py_get1 event "pulseId") as [e|pulseId]; [reflexivity|].
  unfold bind at 1; simpl.
  destruct (py_get1 event "boardId") as [e|boardId]; [reflexivity|].
  unfold bind at 1; simpl.
  destruct (py_get1 event "parentItemId") as [e|parentItemId]; [reflexivity|].
  unfold bind at 1; simpl.
  destruct (py_get1 event "parentItemBoardId") as [e|parentItemBoardId]; [reflexivity|].
  destruct (py_all _); simpl; [|reflexivity].
  unfold bind at 1.
  rewrite (execute_monday_query_no_key env _ _ _ Hkey). reflexivity.
Qed.

End HandlerMore.

(** X15.  An event of any type other than [create_pulse] and
    [update_column_value] (a missing type included) is answered with
    [{"status": "success"}] and causes no call. *)
Theorem monday_webhook_ignores_other_events
        (env : Env) (request : Request) (body event : list (string * json))
        (log : list Call) :
  parsed_body request = Some (JObj body) ->
  dict_get body "challenge" = None ->
  py_get (JObj body) "event" (JObj []) = inr (JObj event) ->
  handled_type (field event "type") = false ->
  monday_webhook env request log = (inr success_response, log).
Proof.
  intros Hp Hc He Ht.
  rewrite (monday_webhook_dispatch env request body event log Hp Hc He).
  rewrite Ht. reflexivity.
Qed.

Lemma monday_webhook_ignores_other_events_witness :
  monday_webhook (Examples.env_of Examples.down_service)
                 (Examples.request_of delete_event) []
  = (inr (JObj [("status", JStr "success")]), []).
Proof.
  apply (monday_webhook_ignores_other_events
           (Examples.env_of Examples.down_service) (Examples.request_of delete_event)
           [("event", JObj [("type", JStr "delete_pulse"); ("pulseId", JNum 77)])]
           [("type", JStr "delete_pulse"); ("pulseId", JNum 77)] []);
    reflexivity.
Defined.

(** X16.  A [create_pulse] or [update_column_value] event with a parent
    item id is handed to [sync_subitem_with_parent]: the calls issued are
    that routine's, and the response is [{"status": "success"}] when it
    returns and the error response for its exception when it raises. *)
Theorem monday_webhook_dispatches_subitem_sync
        (env : Env) (request : Request) (body event : list (string * json))
        (log : list Call) :
  parsed_body request = Some (JObj body) ->
  dict_get body "challenge" = None ->
  py_get (JObj body) "event" (JObj []) = inr (JObj event) ->
  handled_type (field event "type") = true ->
  py_truthy (field event "parentItemId") = true ->
  monday_webhook env request log
  = (match fst (sync_subitem_with_parent env (JObj body) log) with
     | inl e => inr (error_response env e)
     | inr _ => inr success_response
     end,
     snd (sync_subitem_with_parent env (JObj body) log)).
Proof.
  intros Hp Hc He Ht Hparent.
  rewrite (monday_webhook_dispatch env request body event log Hp Hc He).
  rewrite Ht, Hparent. unfold try_except, bind.
  destruct (sync_subitem_with_parent env (JObj body) log) as [[e|[]] log'];
    reflexivity.
Qed.

(** The service is down: the parent lookup's exception becomes the error
    response. *)
Lemma monday_webhook_dispatches_subitem_sync_witness :
  monday_webhook (Examples.env_of Examples.down_service)
                 (Examples.request_of Examples.subitem_event) []
  = (inr (error_response
            (Examples.env_of Examples.down_service)
            (HTTPException 500 "Error from Monday.com API: Internal Server Error")),
     [parent_lookup Examples.subitem_event_fields]).
Proof.
  apply (monday_webhook_dispatches_subitem_sync
           (Examples.env_of Examples.down_service)
           (Examples.request_of Examples.subitem_event)
           [("event", JObj Examples.subitem_event_fields)]
           Examples.subitem_event_fields []);
    reflexivity.
Defined.

(** X17.  A [create_pulse] or [update_column_value] event without a
    parent item id is handed to [process_date_automation]: the calls
    issued are that routine's and the response is
    [{"status": "success"}]. *)
Theorem monday_webhook_dispatches_parent_update
        (env : Env) (request : Request) (body event : list (string * json))
        (log : list Call) :
  parsed_body request = Some (JObj body) ->
  dict_get body "challenge" = None ->
  py_get (JObj body) "event" (JObj []) = inr (JObj event) ->
  handled_type (field event "type") = true ->
  py_truthy (field event "parentItemId") = false ->
  monday_webhook env request log
  = (inr success_response, snd (process_date_automation env (JObj body) log)).
Proof.
  intros Hp Hc He Ht Hparent.
  rewrite (monday_webhook_dispatch env request body event log Hp Hc He).
  rewrite Ht, Hparent. unfold try_except, bind.
  pose proof (process_date_automation_returns env (JObj body) event log He) as Hret.
  destruct (process_date_automation env (JObj body) log) as [[e|[]] log'];
    simpl in Hret; [discriminate|reflexivity].
Qed.

Lemma monday_webhook_dispatches_parent_update_witness :
  monday_webhook
    (Examples.env_of
       (Examples.parent_service
          (Examples.parent_with Examples.may_first [Examples.subitem_a])))
    (Examples.request_of Examples.parent_event) []
  = (inr (JObj [("status", JStr "success")]),
     [mkCall (ItemsWithSubitems (JNum 77)) None;
      subitem_mutation Examples.may_first Examples.subitem_a]).
Proof.
  apply (monday_webhook_dispatches_parent_update
           (Examples.env_of
              (Examples.parent_service
                 (Examples.parent_with Examples.may_first [Examples.subitem_a])))
           (Examples.request_of Examples.parent_event)
           [("event", JObj [("type", JStr "update_column_value");
                            ("pulseId", JNum 77); ("boardId", JNum 5)])]
           [("type", JStr "update_column_value"); ("pulseId", JNum 77);
            ("boardId", JNum 5)] []);
    reflexivity.
Defined.

(** X18.  A payload that parses but is no dict (a list, a string, a
    number, [null]), or whose ["event"] is present and no dict, is
    answered with the error response for [AttributeError]; no call is
    issued, whether or not it holds a challenge. *)
Theorem monday_webhook_rejects_shapeless_payload
        (env : Env) (request : Request) (body : json) (log : list Call) :
  parsed_body request = Some body ->
  (forall event, py_get body "event" (JObj []) <> inr (JObj event)) ->
  monday_webhook env request log = (inr (error_response env AttributeError), log).
Proof.
  intros Hp Hno.
  unfold monday_webhook, try_except.
  unfold bind at 1. rewrite (parse_body_parsed _ _ _ Hp). cbv beta iota.
  unfold bind at 1. unfold liftE at 1.
  destruct body as [| | | | |xs|kvs]; try reflexivity.
  simpl in Hno. simpl py_get.
  destruct (dict_get kvs "event") as [[| | | | |ex|event]|]; try reflexivity.
  - exfalso. exact (Hno event eq_refl).
  - exfalso. exact (Hno [] eq_refl).
Qed.

(** The payload is a JSON list. *)
Lemma monday_webhook_rejects_shapeless_payload_witness :
  monday_webhook (Examples.env_of Examples.down_service)
                 (Examples.request_of (JArr [Examples.parent_event])) []
  = (inr (error_response (Examples.env_of Examples.down_service) AttributeError), []).
Proof.
  apply (monday_webhook_rejects_shapeless_payload
           (Examples.env_of Examples.down_service)
           (Examples.request_of (JArr [Examples.parent_event]))
           (JArr [Examples.parent_event]) []).
  - reflexivity.
  - intros event H. discriminate H.
Defined.

(** X19.  Without a configured key the handler sends nothing to the
    remote service, whatever the request. *)
Theorem monday_webhook_silent_without_key
        (env : Env) (request : Request) (log : list Call) :
  api_key_configured env = false ->
  snd (monday_webhook env request log) = log.
Proof.
  intros Hkey.
  unfold monday_webhook. rewrite try_except_log.
  unfold bind at 1.
  assert (Hparse : snd (parse_body request log) = log).
  { unfold parse_body. destruct (request_json request);
      [destruct (raw_body_json request)|]; reflexivity. }
  destruct (parse_body request log) as [[e|body] log0]; simpl in Hparse; subst log0;
    [reflexivity|].
  match goal with
       | |- context [py_get ?b "event" (JObj [])] =>
           unfold bind at 1; unfold liftE at 1;
           destruct (py_get b "event" (JObj [])) as [e|event]; [reflexivity|];
           cbv beta iota;
           unfold bind at 1; unfold liftE at 1;
           destruct (py_get1 event "type") as [e|event_type]; [reflexivity|];
           cbv beta iota;
           unfold bind at 1; unfold liftE at 1;
           destruct (py_contains "challenge" b) as [e|[|]]; [reflexivity|reflexivity|];
           cbv beta iota;
           destruct (py_eq_str event_type "create_pulse"
                     || py_eq_str event_type "update_column_value"); [|reflexivity];
           unfold bind at 1; unfold liftE at 1;
           cbv beta iota;
           unfold bind at 1; unfold liftE at 1;
           destruct (py_get1 event "parentItemId") as [e|parentItemId]; [reflexivity|];
           cbv beta iota;
           unfold bind at 1;
           destruct (py_truthy parentItemId);
           [pose proof (sync_subitem_with_parent_no_key env b log Hkey) as Hl;
            destruct (sync_subitem_with_parent env b log) as [[e|[]] log']
           |pose proof (process_date_automation_no_key env b log Hkey) as Hl;
            destruct (process_date_automation env b log) as [[e|[]] log']];
           simpl in Hl; subst log'; reflexivity
       end.
Qed.

Lemma monday_webhook_silent_without_key_witness :
  snd (monday_webhook keyless_env (Examples.request_of Examples.subitem_event) []) = [].
Proof.
  apply (monday_webhook_silent_without_key
           keyless_env (Examples.request_of Examples.subitem_event) []).
  reflexivity.
Defined.

(** X20.  The test endpoint reports the key as configured exactly when
    the client gets past its configuration check, that is, when every
    invocation of [execute_monday_query] sends its request. *)
Theorem test_endpoint_reports_key
        (env : Env) (getenv : string -> option string) :
  member (member (test_endpoint env getenv) "environment") "monday_api_key_configured"
  = JBool true
  <-> (forall q v log, calls_of (execute_monday_query env q v) log = [mkCall q v]).
Proof.
  change (JBool (api_key_configured env) = JBool true
          <-> (forall q v log, calls_of (execute_monday_query env q v) log = [mkCall q v])).
  split.
  - intros H. injection H as Hkey. intros q v log.
    apply calls_of_app. rewrite execute_monday_query_log, Hkey. reflexivity.
  - intros H. specialize (H GetParentItem None []).
    unfold calls_of in H. rewrite execute_monday_query_log in H.
    destruct (api_key_configured env); [reflexivity|discriminate H].
Qed.

(** X21.  A payload that is a dict with a ["challenge"] key and whose
    ["event"] is absent or a dict is returned by the handler as it is,
    and no call is issued. *)
Theorem monday_webhook_echoes_challenge
        (env : Env) (request : Request) (body : list (string * json))
        (challenge : json) (log : list Call) :
  parsed_body request = Some (JObj body) ->
  dict_get body "challenge" = Some challenge ->
  (dict_get body "event" = None \/ exists event, dict_get body "event" = Some (JObj event)) ->
  monday_webhook env request log = (inr (JObj body), log).
Proof.
  apply monday_webhook_challenge.
Qed.

Lemma monday_webhook_echoes_challenge_witness :
  monday_webhook (Examples.env_of Examples.down_service)
                 (Examples.request_of Examples.plain_challenge) []
  = (inr Examples.plain_challenge, []).
Proof.
  apply (monday_webhook_echoes_challenge
           (Examples.env_of Examples.down_service)
           (Examples.request_of Examples.plain_challenge)
           [("challenge", JStr "abc123")] (JStr "abc123") []).
  - reflexivity.
  - reflexivity.
  - left. reflexivity.
Defined.

(** A challenge that is a number out of range ([1e400] reads as
    infinity) is returned by the handler like any other, but cannot be
    written as strict JSON: the answer is sent with status 500. *)
Example challenge_out_of_range :
  fst (monday_webhook (Examples.env_of Examples.down_service)
                      (Examples.request_of (JObj [("challenge", JFloat (Infinite false))]))
                      [])
  = inr (JObj [("challenge", JFloat (Infinite false))])
  /\ fastapi_status
       (fst (monday_webhook (Examples.env_of Examples.down_service)
                            (Examples.request_of
                               (JObj [("challenge", JFloat (Infinite false))]))
                            []))
     = 500%Z.
Proof.
  split; reflexivity.
Qed.
